(** * Pair stationarity testing: a model of [ML Algo/ml_algo.py]

    The script fetches two closing-price series, subtracts them and runs the
    Augmented Dickey-Fuller and the Phillips-Perron tests on the difference.
    Python floats are IEEE binary64 numbers, modelled by Rocq's primitive
    floats; a pandas [Series] is a list of (date, value) rows; a [DataFrame]
    is an index with a finite map from column names to value columns; the
    script itself is a computation in a state-and-exception monad whose state
    holds the unread input lines and the log of what was printed and called.
    The routines of yfinance, pandas' rolling windows, ta, statsmodels and
    arch are parameters of the model, gathered in the record [Library]. *)

From Stdlib Require Import ZArith Floats Lia.
From stdpp Require Import base option list strings gmap sorting.

Set Warnings "-inexact-float".
Local Open Scope Z_scope.

(** ** Python values *)

(** The line feed written [\n] in the source's string literals. *)
Definition nl : string := String (Ascii.ascii_of_nat 10) EmptyString.

(** [str.upper()] on ASCII text: the letters a to z are replaced by A to Z and
    every other character is kept. Python's method is Unicode-aware; the two
    agree on the strings made of ASCII characters only, see [is_ascii]. *)
Definition upper_ascii (c : Ascii.ascii) : Ascii.ascii :=
  let n := Ascii.nat_of_ascii c in
  if ((97 <=? n)%nat && (n <=? 122)%nat)%bool then Ascii.ascii_of_nat (n - 32) else c.

Fixpoint upper (s : string) : string :=
  match s with
  | EmptyString => EmptyString
  | String c r => String (upper_ascii c) (upper r)
  end.

(** A string of ASCII characters only. *)
Fixpoint is_ascii (s : string) : bool :=
  match s with
  | EmptyString => true
  | String c r => (Ascii.nat_of_ascii c <? 128)%nat && is_ascii r
  end.

(** Exceptions. [KeyError] and [EOFError] are raised by the interpreter and
    by pandas; the next three are the error classes of the specification's
    taxonomy; [ValueError] and [InfeasibleTestException] are classes the
    statistical routines raise. The script defines no exception class and
    catches none. *)
Inductive exception :=
| KeyError (key : string)
| EOFError
| FetchError
| EmptyIntersectionError
| NonComputableStatistic
| ValueError (message : string)
| InfeasibleTestException.

(** ** pandas: Series *)

(** A series is a list of rows (date, value), dates being instants counted
    as integers.  A missing value is the float [nan]. *)
Abbreviation Series := (list (Z * float)).

Definition series_index (s : Series) : list Z := s.*1.
Definition series_values (s : Series) : list float := s.*2.

(** The value at the first row labelled [d]. *)
Fixpoint loc (s : Series) (d : Z) : option float :=
  match s with
  | [] => None
  | (d', v) :: rest => if decide (d' = d) then Some v else loc rest d
  end.

(** [s.reindex(idx)]: rows for the labels of [idx], [nan] where [s] has none. *)
Definition reindex (s : Series) (idx : list Z) : Series :=
  (λ d, (d, default nan (loc s d))) <$> idx.

(** [Index.union] of two indexes without repeated labels: the labels of either
    index, each once, in ascending order. (For an index with a repeated label
    pandas joins row by row and keeps the repetitions; the properties below
    that go through this definition assume dates in strictly ascending
    order.) *)
Definition index_union (i1 i2 : list Z) : list Z :=
  merge_sort Z.le (remove_dups (i1 ++ i2)).

(** The labels two indexes have in common, in the order of the first. *)
Definition common_dates (i1 i2 : list Z) : list Z :=
  filter (λ d, d ∈ i2) i1.

(** Alignment before a binary operation: nothing is done when the two indexes
    are equal, otherwise both operands are reindexed on the union of the
    indexes (an outer join). *)
Definition align (left right : Series) : Series * Series :=
  if decide (series_index left = series_index right) then (left, right)
  else
    let idx := index_union (series_index left) (series_index right) in
    (reindex left idx, reindex right idx).

(** A binary operator between two series: align, then apply row by row. *)
Definition series_binop (op : float → float → float) (left right : Series) : Series :=
  let '(l, r) := align left right in
  zip_with (λ x y, (x.1, op x.2 y.2)) l r.

Definition series_sub : Series → Series → Series := series_binop PrimFloat.sub.
Definition series_add : Series → Series → Series := series_binop PrimFloat.add.
Definition series_div : Series → Series → Series := series_binop PrimFloat.div.

(** A series times a scalar. *)
Definition series_mul_scalar (s : Series) (k : float) : Series :=
  (λ row, (row.1, PrimFloat.mul row.2 k)) <$> s.

(** ** pandas: DataFrame *)

Record DataFrame := {
  df_index : list Z;
  df_columns : gmap string (list float)
}.

(** [df[col]] as an expression: the column as a series, or [KeyError]. *)
Definition getitem (df : DataFrame) (col : string) : exception + Series :=
  match df_columns df !! col with
  | Some vs => inr (zip (df_index df) vs)
  | None => inl (KeyError col)
  end.

(** [df[col] = s]: the values of [s] are placed on the frame's index and
    stored under [col]; every other column is kept. *)
Definition setitem (df : DataFrame) (col : string) (s : Series) : DataFrame :=
  let vs :=
    if decide (series_index s = df_index df) then series_values s
    else series_values (reindex s (df_index df)) in
  {| df_index := df_index df; df_columns := <[col := vs]> (df_columns df) |}.

(** ** The external routines *)

(** The tuple [adfuller] returns with [autolag='AIC'], positions 0 to 5. *)
Record adfuller_result := {
  adf_statistic : float;
  adf_p_value : float;
  adf_usedlag : Z;
  adf_nobs : Z;
  adf_critical_values : list (string * float);
  adf_icbest : float
}.

(** A [PhillipsPerron] object: its two properties are computed on access,
    and an access either yields a number or raises. *)
Record unit_root_test := {
  stat : exception + float;
  pvalue : exception + float
}.

Record Library := {
  (* yf.Ticker(ticker).history(start=..., end=...) *)
  history : string → string → string → exception + DataFrame;
  (* s.rolling(window=n).mean(), s.rolling(window=n).std() *)
  rolling_mean : nat → Series → Series;
  rolling_std : nat → Series → Series;
  (* s.ewm(span=n, adjust=False).mean() *)
  ewm_mean : nat → Series → Series;
  (* ta.momentum.RSIIndicator(s, window=n).rsi() *)
  rsi : Series → nat → exception + Series;
  (* ta.trend.MACD(s).macd() *)
  macd : Series → exception + Series;
  (* ta.volatility.AverageTrueRange(high=, low=, close=).average_true_range() *)
  average_true_range : Series → Series → Series → exception + Series;
  (* statsmodels.tsa.stattools.adfuller(s, autolag='AIC') *)
  adfuller : Series → exception + adfuller_result;
  (* arch.unitroot.PhillipsPerron(s) *)
  PhillipsPerron : Series → exception + unit_root_test
}.

(** ** The world of a run *)

Inductive fragment :=
| Text (s : string)
| Number (x : float)
| CriticalValues (cv : list (string * float))
| Described (s : Series).   (* the table [s.describe()] prints *)

Inductive call :=
| CallHistory (ticker start_date end_date : string)
| CallAdfuller (series : Series)
| CallPhillipsPerron (series : Series).

Inductive event :=
| Prompt (text : string)
| Printed (line : list fragment)
| Called (c : call).

Record world := {
  stdin : list string;
  events : list event
}.

Definition log (w : world) (evs : list event) : world :=
  {| stdin := stdin w; events := events w ++ evs |}.

(** A computation either returns or raises, and leaves a world behind. *)
Definition M (A : Type) : Type := world → world * (exception + A).

#[global] Instance M_ret : MRet M := λ A a w, (w, inr a).
#[global] Instance M_bind : MBind M := λ A B f m w,
  match m w with
  | (w', inr a) => f a w'
  | (w', inl e) => (w', inl e)
  end.
#[global] Instance M_fmap : FMap M := λ A B f m, a ← m; mret (f a).

Definition lift {A} (r : exception + A) : M A := λ w, (w, r).
Definition emit (e : event) : M unit := λ w, (log w [e], inr tt).
Definition print (line : list fragment) : M unit := emit (Printed line).

(** [input(prompt)]: the prompt is written, then a line is read. *)
Definition input (prompt : string) : M string := λ w,
  match stdin w with
  | [] => (log w [Prompt prompt], inl EOFError)
  | line :: rest =>
      ({| stdin := rest; events := events w ++ [Prompt prompt] |}, inr line)
  end.

(** ** The script *)

Section Script.
Context (lib : Library).

Definition fetch_stock_data (ticker start_date end_date : string) : M DataFrame :=
  emit (Called (CallHistory ticker start_date end_date));;
  data ← lift (history lib ticker start_date end_date);
  (* Compute rolling statistics *)
  close ← lift (getitem data "Close");
  let data := setitem data "Rolling_Mean" (rolling_mean lib 20 close) in
  close ← lift (getitem data "Close");
  let data := setitem data "Rolling_Std" (rolling_std lib 20 close) in
  close ← lift (getitem data "Close");
  mean ← lift (getitem data "Rolling_Mean");
  std ← lift (getitem data "Rolling_Std");
  let data := setitem data "Z_Score" (series_div (series_sub close mean) std) in
  (* Compute Bollinger Bands *)
  mean ← lift (getitem data "Rolling_Mean");
  std ← lift (getitem data "Rolling_Std");
  let data := setitem data "Bollinger_High" (series_add mean (series_mul_scalar std 2)) in
  mean ← lift (getitem data "Rolling_Mean");
  std ← lift (getitem data "Rolling_Std");
  let data := setitem data "Bollinger_Low" (series_sub mean (series_mul_scalar std 2)) in
  (* Compute technical indicators *)
  close ← lift (getitem data "Close");
  r ← lift (rsi lib close 14);
  let data := setitem data "RSI" r in
  close ← lift (getitem data "Close");
  let data := setitem data "SMA_50" (rolling_mean lib 50 close) in
  close ← lift (getitem data "Close");
  let data := setitem data "EMA_50" (ewm_mean lib 50 close) in
  close ← lift (getitem data "Close");
  m ← lift (macd lib close);
  let data := setitem data "MACD" m in
  high ← lift (getitem data "High");
  low ← lift (getitem data "Low");
  close ← lift (getitem data "Close");
  a ← lift (average_true_range lib high low close);
  let data := setitem data "ATR" a in
  mret data.

Definition adf_test (series : Series) : M float :=
  emit (Called (CallAdfuller series));;
  result ← lift (adfuller lib series);
  print [Text (nl +:+ "ADF Test Statistic: "); Number (adf_statistic result)];;
  print [Text "ADF Test p-value: "; Number (adf_p_value result)];;
  print [Text "ADF Critical Values: "; CriticalValues (adf_critical_values result)];;
  mret (adf_p_value result).

Definition phillips_perron_test (series : Series) : M float :=
  emit (Called (CallPhillipsPerron series));;
  result ← lift (PhillipsPerron lib series);
  s ← lift (stat result);
  print [Text (nl +:+ "Phillips-Perron Test Statistic: "); Number s];;
  p ← lift (pvalue result);
  print [Text "Phillips-Perron Test p-value: "; Number p];;
  lift (pvalue result).

(** Line 84, [spread = stock1 - stock2]. *)
Definition raw_spread (stock1 stock2 : Series) : M Series :=
  mret (series_sub stock1 stock2).

(** Lines 88 to 93. *)
Definition run_adf (ticker1 ticker2 : string) (spread : Series) : M unit :=
  adf_pvalue ← adf_test spread;
  if (adf_pvalue <? 0.3)%float
  then print [Text (nl +:+ ticker1 +:+ " and " +:+ ticker2
                    +:+ " may be cointegrated (ADF Test).")]
  else print [Text (nl +:+ ticker1 +:+ " and " +:+ ticker2
                    +:+ " do not show strong cointegration (ADF Test).")].

(** Lines 95 to 100. *)
Definition run_phillips_perron (ticker1 ticker2 : string) (spread : Series) : M unit :=
  pp_pvalue ← phillips_perron_test spread;
  if (pp_pvalue <? 0.3)%float
  then print [Text (nl +:+ ticker1 +:+ " and " +:+ ticker2
                    +:+ " may be cointegrated (Phillips-Perron Test).")]
  else print [Text (nl +:+ ticker1 +:+ " and " +:+ ticker2
                    +:+ " do not show strong cointegration (Phillips-Perron Test).")].

(** Lines 88 to 100: the two tests, one after the other. *)
Definition run_tests (ticker1 ticker2 : string) (spread : Series) : M unit :=
  run_adf ticker1 ticker2 spread;;
  run_phillips_perron ticker1 ticker2 spread.

(** The expression [fetch_stock_data(ticker, start_date, end_date)['Close']]
    of lines 80 and 81. *)
Definition fetch_close (ticker start_date end_date : string) : M Series :=
  data ← fetch_stock_data ticker start_date end_date;
  lift (getitem data "Close").

Definition main : M unit :=
  (* Input stock tickers and date range *)
  ticker1 ← upper <$> input "Enter first stock ticker for pair testing: ";
  ticker2 ← upper <$> input "Enter second stock ticker for pair testing: ";
  start_date ← input "Enter start date (YYYY-MM-DD): ";
  end_date ← input "Enter end date (YYYY-MM-DD): ";
  (* Fetch closing prices *)
  stock1 ← fetch_close ticker1 start_date end_date;
  stock2 ← fetch_close ticker2 start_date end_date;
  (* Compute raw spread *)
  spread ← raw_spread stock1 stock2;
  print [Text (nl +:+ "Spread Summary:")];;
  print [Described spread];;
  run_tests ticker1 ticker2 spread.
End Script.

(** ** Notions of the specification *)

(** A price series is sorted by strictly ascending date; there are then no
    duplicate dates. *)
Fixpoint ascending (l : list Z) : bool :=
  match l with
  | [] => true
  | x :: rest =>
      match rest with
      | [] => true
      | y :: _ => (x <? y) && ascending rest
      end
  end.

(** A degenerate spread: every value equals the first one. *)
Definition is_constant (s : Series) : bool :=
  match series_values s with
  | [] => true
  | v :: vs => forallb (λ x, (x =? v)%float) vs
  end.

(** The verdict of the specification's data model,
    [is_stationary = (p_value < threshold)]. *)
Definition is_stationary (p_value threshold : float) : bool :=
  (p_value <? threshold)%float.

(** The line that reports a verdict for the test named [test]. *)
Definition verdict_line (ticker1 ticker2 test : string) (stationary : bool) : event :=
  Printed [Text (nl +:+ ticker1 +:+ " and " +:+ ticker2
                 +:+ (if stationary then " may be cointegrated ("
                      else " do not show strong cointegration (")
                 +:+ test +:+ ").")].

(** What [adf_test] logs when [adfuller] returns [r]. *)
Definition adf_report (series : Series) (r : adfuller_result) : list event :=
  [ Called (CallAdfuller series);
    Printed [Text (nl +:+ "ADF Test Statistic: "); Number (adf_statistic r)];
    Printed [Text "ADF Test p-value: "; Number (adf_p_value r)];
    Printed [Text "ADF Critical Values: "; CriticalValues (adf_critical_values r)] ].

(** What [phillips_perron_test] logs when the statistic is [s] and the
    p-value is [p]. *)
Definition pp_report (series : Series) (s p : float) : list event :=
  [ Called (CallPhillipsPerron series);
    Printed [Text (nl +:+ "Phillips-Perron Test Statistic: "); Number s];
    Printed [Text "Phillips-Perron Test p-value: "; Number p] ].

(** The columns [fetch_stock_data] writes. *)
Definition indicator_columns : list string :=
  ["Rolling_Mean"; "Rolling_Std"; "Z_Score"; "Bollinger_High"; "Bollinger_Low";
   "RSI"; "SMA_50"; "EMA_50"; "MACD"; "ATR"].

(** A frame is well formed when each of its columns has one value for each
    row of its index. *)
Definition well_formed (df : DataFrame) : Prop :=
  ∀ col vs, df_columns df !! col = Some vs → length vs = length (df_index df).

(** The four prompts of the script, in the order they are shown. *)
Definition prompts : list event :=
  [ Prompt "Enter first stock ticker for pair testing: ";
    Prompt "Enter second stock ticker for pair testing: ";
    Prompt "Enter start date (YYYY-MM-DD): ";
    Prompt "Enter end date (YYYY-MM-DD): " ].

(** ** A small scenario, for running the model *)

Module Scenario.
Definition frame (dates : list Z) (close : list float) : DataFrame :=
  {| df_index := dates;
     df_columns := {[ "Close" := close; "High" := close; "Low" := close ]} |}.

(** Three days of prices for the ticker AAA, and for any other ticker
    three days that start one day later. *)
Definition aaa : DataFrame := frame [1; 2; 3] [10; 20; 40]%float.
Definition other : DataFrame := frame [2; 3; 4] [5; 7; 9]%float.

Definition flat (dates : list Z) : Series := (λ d, (d, 0%float)) <$> dates.

Definition adf_answer (p : float) : adfuller_result :=
  {| adf_statistic := (-2)%float; adf_p_value := p;
     adf_usedlag := 0; adf_nobs := 3;
     adf_critical_values := [("5%", (-2.86)%float)];
     adf_icbest := 0%float |}.

Definition pp_answer (p : float) : unit_root_test :=
  {| stat := inr (-3)%float; pvalue := inr p |}.

(** A library whose tests report the p-values [p_adf] and [p_pp], and
    fail on a constant series. *)
Definition library (p_adf p_pp : float) : Library :=
  {| history := λ ticker _ _,
       if decide (ticker = "AAA") then inr aaa else inr other;
     rolling_mean := λ _ s, s;
     rolling_std := λ _ s, s;
     ewm_mean := λ _ s, s;
     rsi := λ s _, inr s;
     macd := λ s, inr s;
     average_true_range := λ _ _ close, inr close;
     adfuller := λ s,
       if is_constant s then inl NonComputableStatistic else inr (adf_answer p_adf);
     PhillipsPerron := λ s,
       if is_constant s then inl NonComputableStatistic else inr (pp_answer p_pp) |}.

(** A library whose ADF routine always fails and whose Phillips-Perron
    routine always answers. *)
Definition adf_fails : Library :=
  {| history := history (library 0.01 0.01);
     rolling_mean := λ _ s, s;
     rolling_std := λ _ s, s;
     ewm_mean := λ _ s, s;
     rsi := λ s _, inr s;
     macd := λ s, inr s;
     average_true_range := λ _ _ close, inr close;
     adfuller := λ _, inl NonComputableStatistic;
     PhillipsPerron := λ _, inr (pp_answer 0.01) |}.

Definition stock1 : Series := [(1, 10%float); (2, 20%float); (3, 40%float)].
Definition stock2 : Series := [(2, 5%float); (3, 7%float); (4, 9%float)].
Definition early : Series := [(1, 10%float); (2, 20%float)].
Definition late : Series := [(5, 5%float); (6, 7%float)].

(** The frame [fetch_stock_data] returns for [ticker] with that library. *)
Definition enriched (ticker : string) : DataFrame :=
  match (fetch_stock_data (library 0.01 0.5) ticker "2024-01-01" "2024-02-01"
           {| stdin := []; events := [] |}).2 with
  | inr data => data
  | inl _ => other
  end.

(** A provider that returns closing prices only, without the High and Low
    columns. *)
Definition close_only : DataFrame :=
  {| df_index := [1; 2; 3]; df_columns := {[ "Close" := [10; 20; 40]%float ]} |}.

Definition library_close_only : Library :=
  {| history := λ _ _ _, inr close_only;
     rolling_mean := λ _ s, s;
     rolling_std := λ _ s, s;
     ewm_mean := λ _ s, s;
     rsi := λ s _, inr s;
     macd := λ s, inr s;
     average_true_range := λ _ _ close, inr close;
     adfuller := λ _, inr (adf_answer 0.01);
     PhillipsPerron := λ _, inr (pp_answer 0.01) |}.

(** A provider that knows the ticker AAA only. *)
Definition library_aaa_only : Library :=
  {| history := λ ticker _ _,
       if decide (ticker = "AAA") then inr aaa else inl FetchError;
     rolling_mean := λ _ s, s;
     rolling_std := λ _ s, s;
     ewm_mean := λ _ s, s;
     rsi := λ s _, inr s;
     macd := λ s, inr s;
     average_true_range := λ _ _ close, inr close;
     adfuller := λ _, inr (adf_answer 0.01);
     PhillipsPerron := λ _, inr (pp_answer 0.01) |}.

(** A library whose ADF routine answers and whose Phillips-Perron routine
    answers with [pp]. *)
Definition library_with (pp : exception + unit_root_test) : Library :=
  {| history := history (library 0.01 0.01);
     rolling_mean := λ _ s, s;
     rolling_std := λ _ s, s;
     ewm_mean := λ _ s, s;
     rsi := λ s _, inr s;
     macd := λ s, inr s;
     average_true_range := λ _ _ close, inr close;
     adfuller := λ _, inr (adf_answer 0.01);
     PhillipsPerron := λ _, pp |}.


Definition keyboard : world :=
  {| stdin := ["aaa"; "bbb"; "2024-01-01"; "2024-02-01"]; events := [] |}.
Definition nothing : world := {| stdin := []; events := [] |}.
End Scenario.

(** * Properties *)

(** ** Floats *)

Lemma sub_nan_l (y : float) : (nan - y)%float = nan.
Proof.
  rewrite <- (SF2Prim_Prim2SF (nan - y)), sub_spec.
  reflexivity.
Qed.

Lemma sub_nan_r (x : float) : (x - nan)%float = nan.
Proof.
  rewrite <- (SF2Prim_Prim2SF (x - nan)), sub_spec.
  change (Prim2SF nan) with S754_nan.
  destruct (Prim2SF x); reflexivity.
Qed.

(** The order of binary64 numbers is transitive (a comparison with [nan]
    is false, so [nan] never appears in a chain). *)
Lemma finite_lt_trans (m1 m2 m3 : positive) (e1 e2 e3 : Z) :
  match (e1 ?= e2)%Z with Eq => Pos.compare_cont Eq m1 m2 | c => c end = Lt →
  match (e2 ?= e3)%Z with Eq => Pos.compare_cont Eq m2 m3 | c => c end = Lt →
  match (e1 ?= e3)%Z with Eq => Pos.compare_cont Eq m1 m3 | c => c end = Lt.
Proof.
  change (Pos.compare_cont Eq) with Pos.compare.
  destruct (Z.compare_spec e1 e2), (Z.compare_spec e2 e3); try discriminate;
    destruct (Z.compare_spec e1 e3); try lia; try reflexivity.
  rewrite !Pos.compare_lt_iff. lia.
Qed.

Lemma finite_gt_trans (m1 m2 m3 : positive) (e1 e2 e3 : Z) :
  match (e1 ?= e2)%Z with
  | Eq => CompOpp (Pos.compare_cont Eq m1 m2) | Lt => Gt | Gt => Lt end = Lt →
  match (e2 ?= e3)%Z with
  | Eq => CompOpp (Pos.compare_cont Eq m2 m3) | Lt => Gt | Gt => Lt end = Lt →
  match (e1 ?= e3)%Z with
  | Eq => CompOpp (Pos.compare_cont Eq m1 m3) | Lt => Gt | Gt => Lt end = Lt.
Proof.
  change (Pos.compare_cont Eq) with Pos.compare.
  destruct (Z.compare_spec e1 e2), (Z.compare_spec e2 e3); try discriminate;
    destruct (Z.compare_spec e1 e3); try lia; try reflexivity.
  destruct (Pos.compare_spec m1 m2), (Pos.compare_spec m2 m3); try discriminate;
    destruct (Pos.compare_spec m1 m3); try lia; reflexivity.
Qed.

Lemma is_Lt_true (c : comparison) :
  match c with Lt => true | _ => false end = true → c = Lt.
Proof. destruct c; (reflexivity || discriminate). Qed.

Lemma SFltb_trans (x y z : spec_float) :
  SFltb x y = true → SFltb y z = true → SFltb x z = true.
Proof.
  unfold SFltb.
  destruct x as [sx|sx| |sx mx ex], y as [sy|sy| |sy my ey], z as [sz|sz| |sz mz ez];
    simpl; try discriminate;
    try (destruct sx; discriminate); try (destruct sy; discriminate);
    try (destruct sz; discriminate);
    try (destruct sx, sy; discriminate); try (destruct sy, sz; discriminate);
    try (destruct sx, sy, sz; (discriminate || reflexivity)).
  all: destruct sx, sy, sz; try discriminate; try reflexivity.
  all: intros H1%is_Lt_true H2%is_Lt_true.
  - by rewrite (finite_gt_trans mx my mz ex ey ez H1 H2).
  - by rewrite (finite_lt_trans mx my mz ex ey ez H1 H2).
Qed.

Lemma ltb_trans (x y z : float) :
  (x <? y)%float = true → (y <? z)%float = true → (x <? z)%float = true.
Proof. rewrite !ltb_spec. apply SFltb_trans. Qed.

(** ** Indexes *)

Lemma ascending_Sorted (l : list Z) : ascending l = true ↔ Sorted Z.lt l.
Proof.
  induction l as [|x [|y l] IH].
  - split; [constructor | reflexivity].
  - split; [repeat constructor | reflexivity].
  - change (ascending (x :: y :: l)) with ((x <? y) && ascending (y :: l)).
    rewrite andb_true_iff, Z.ltb_lt, IH. split.
    + intros [? ?]. constructor; [done|]. by constructor.
    + intros H. apply Sorted_inv in H as [? Hd]. by apply HdRel_inv in Hd.
Qed.

Lemma StronglySorted_lt_NoDup (l : list Z) : StronglySorted Z.lt l → NoDup l.
Proof.
  induction 1 as [|x l _ IH Hx]; constructor; [|done].
  intros Hin. rewrite Forall_forall in Hx. specialize (Hx _ Hin). lia.
Qed.

Lemma ascending_NoDup (l : list Z) : ascending l = true → NoDup l.
Proof.
  intros H%ascending_Sorted. apply StronglySorted_lt_NoDup.
  by apply Sorted_StronglySorted; [intros ???; lia|].
Qed.

Lemma StronglySorted_le_lt (l : list Z) :
  StronglySorted Z.le l → NoDup l → StronglySorted Z.lt l.
Proof.
  induction 1 as [|x l _ IH Hx]; intros Hnd; [constructor|].
  apply NoDup_cons in Hnd as [Hx' Hnd]. constructor; [by apply IH|].
  rewrite Forall_forall in *. intros y Hy.
  specialize (Hx _ Hy). assert (x ≠ y) by (by intros ->). lia.
Qed.

Lemma elem_of_index_union (i1 i2 : list Z) (d : Z) :
  d ∈ index_union i1 i2 ↔ d ∈ i1 ∨ d ∈ i2.
Proof.
  unfold index_union.
  by rewrite merge_sort_Permutation, elem_of_remove_dups, elem_of_app.
Qed.

Lemma index_union_ascending (i1 i2 : list Z) :
  ascending (index_union i1 i2) = true.
Proof.
  apply ascending_Sorted, StronglySorted_Sorted, StronglySorted_le_lt.
  - apply StronglySorted_merge_sort; [intros ???; lia | intros ??; lia].
  - unfold index_union. rewrite merge_sort_Permutation. apply NoDup_remove_dups.
Qed.

Lemma remove_dups_NoDup (l : list Z) : NoDup l → remove_dups l = l.
Proof.
  induction 1 as [|x l Hx _ IH]; [done|]. simpl.
  destruct (decide_rel _ x l); [done|]. by rewrite IH.
Qed.

Lemma common_dates_length (i1 i2 : list Z) :
  (length (common_dates i1 i2) ≤ length i1)%nat.
Proof. apply length_filter. Qed.

Lemma index_union_length (i1 i2 : list Z) :
  NoDup i1 → NoDup i2 →
  length (index_union i1 i2)
  = (length i1 + length i2 - length (common_dates i1 i2))%nat.
Proof.
  intros H1 H2. unfold index_union. rewrite merge_sort_Permutation.
  induction H1 as [|x l Hx _ IH].
  - simpl. rewrite remove_dups_NoDup by done. unfold common_dates. simpl. lia.
  - pose proof (common_dates_length l i2) as Hle.
    unfold common_dates in *. simpl. rewrite filter_cons.
    destruct (decide_rel _ x (l ++ i2)) as [Hin|Hin]; rewrite elem_of_app in Hin.
    + destruct Hin as [?|Hin]; [done|].
      rewrite decide_True by done. simpl. lia.
    + rewrite decide_False by tauto. simpl. lia.
Qed.

(** ** Series *)

Lemma loc_None (s : Series) (d : Z) : loc s d = None ↔ d ∉ series_index s.
Proof.
  unfold series_index. induction s as [|[d' v] s IH]; simpl.
  - split; [intros _; apply not_elem_of_nil | done].
  - rewrite not_elem_of_cons. destruct (decide (d' = d)) as [->|Hne].
    + split; [done | intros [? _]; done].
    + rewrite IH. split; [intros ?; split; [congruence | done] | intros [_ ?]; done].
Qed.

Lemma loc_is_Some (s : Series) (d : Z) : d ∈ series_index s → is_Some (loc s d).
Proof.
  intros Hin. destruct (loc s d) eqn:E; [by eexists|].
  by apply loc_None in E.
Qed.

Lemma loc_fmap (g : Z → float) (idx : list Z) (d : Z) :
  d ∈ idx → loc ((λ d, (d, g d)) <$> idx) d = Some (g d).
Proof.
  induction idx as [|d' idx IH]; [by intros ?%elem_of_nil|].
  intros Hin. simpl. destruct (decide (d' = d)) as [->|Hne]; [done|].
  apply elem_of_cons in Hin as [->|Hin]; [done | by apply IH].
Qed.

Lemma zip_with_reindex (op : float → float → float) (a b : Series) (idx : list Z) :
  zip_with (λ x y : Z * float, (x.1, op x.2 y.2)) (reindex a idx) (reindex b idx)
  = (λ d, (d, op (default nan (loc a d)) (default nan (loc b d)))) <$> idx.
Proof. unfold reindex. induction idx as [|d idx IH]; [done|]. csimpl. by rewrite IH. Qed.

Lemma series_binop_same_index (op : float → float → float) (a b : Series) :
  series_index a = series_index b →
  series_binop op a b = zip_with (λ x y, (x.1, op x.2 y.2)) a b.
Proof. intros E. unfold series_binop, align. by rewrite decide_True. Qed.

Lemma series_binop_aligned (op : float → float → float) (a b : Series) :
  series_index a ≠ series_index b →
  series_binop op a b
  = (λ d, (d, op (default nan (loc a d)) (default nan (loc b d))))
      <$> index_union (series_index a) (series_index b).
Proof.
  intros E. unfold series_binop, align. rewrite decide_False by done.
  apply zip_with_reindex.
Qed.

Lemma series_index_fmap (g : Z → float) (idx : list Z) :
  series_index ((λ d, (d, g d)) <$> idx) = idx.
Proof.
  unfold series_index. rewrite <- list_fmap_compose.
  induction idx as [|d idx IH]; [done|]. csimpl. by rewrite IH.
Qed.

Lemma zip_with_rows (op : float → float → float) (a b : Series) :
  series_index a = series_index b →
  series_index (zip_with (λ x y, (x.1, op x.2 y.2)) a b) = series_index a
  ∧ series_values (zip_with (λ x y, (x.1, op x.2 y.2)) a b)
    = zip_with op (series_values a) (series_values b).
Proof.
  unfold series_index, series_values. revert b.
  induction a as [|[d x] a IH]; intros [|[d' y] b] E; try done.
  csimpl in *. injection E as -> E. destruct (IH b E) as [Hi Hv].
  split; f_equal; assumption.
Qed.

(** Line 84 never raises: subtraction of two series is a total operation. *)
Lemma raw_spread_returns (stock1 stock2 : Series) (w : world) :
  raw_spread stock1 stock2 w = (w, inr (series_sub stock1 stock2)).
Proof. reflexivity. Qed.

(** C3. Two price series with the same dates: the spread has the dates of
    the inputs, in the same (ascending) order, hence their length, and its
    i-th value is the i-th price of the first series minus the i-th price
    of the second. *)
Theorem spread_same_dates (stock1 stock2 : Series) (w : world) :
  series_index stock1 = series_index stock2 →
  ∃ spread,
    raw_spread stock1 stock2 w = (w, inr spread)
    ∧ length spread = length stock1
    ∧ length spread = length stock2
    ∧ series_index spread = series_index stock1
    ∧ (ascending (series_index stock1) = true → ascending (series_index spread) = true)
    ∧ series_values spread
      = zip_with PrimFloat.sub (series_values stock1) (series_values stock2)
    ∧ ∀ i d x y,
        stock1 !! i = Some (d, x) → stock2 !! i = Some (d, y) →
        spread !! i = Some (d, (x - y)%float).
Proof.
  intros E. exists (series_sub stock1 stock2).
  split; [apply raw_spread_returns|].
  unfold series_sub. rewrite series_binop_same_index by done.
  destruct (zip_with_rows PrimFloat.sub stock1 stock2 E) as [Hi Hv].
  assert (Hlen : length stock1 = length stock2).
  { unfold series_index in E. by rewrite <- (length_fmap fst stock1), E, length_fmap. }
  split_and!.
  - rewrite length_zip_with. lia.
  - rewrite length_zip_with. lia.
  - done.
  - by rewrite Hi.
  - done.
  - intros i d x y H1 H2. rewrite lookup_zip_with, H1. simpl. by rewrite H2.
Qed.

Lemma spread_same_dates_witness :
  series_index Scenario.stock1 = series_index (Scenario.flat [1; 2; 3])
  ∧ ∃ spread,
      raw_spread Scenario.stock1 (Scenario.flat [1; 2; 3]) Scenario.nothing
      = (Scenario.nothing, inr spread)
      ∧ length spread = 3%nat.
Proof.
  split; [reflexivity|].
  destruct (spread_same_dates Scenario.stock1 (Scenario.flat [1; 2; 3])
              Scenario.nothing eq_refl) as (spread & Hrun & Hlen & _).
  exists spread. split; [exact Hrun | exact Hlen].
Defined.

(** The spread of two series whose indexes differ, date by date. *)
Lemma spread_aligned_loc (stock1 stock2 : Series) (d : Z) :
  series_index stock1 ≠ series_index stock2 →
  d ∈ series_index stock1 ∨ d ∈ series_index stock2 →
  loc (series_sub stock1 stock2) d
  = Some (default nan (loc stock1 d) - default nan (loc stock2 d))%float.
Proof.
  intros E Hd. unfold series_sub. rewrite series_binop_aligned by done.
  apply (loc_fmap (λ d, _)). by apply elem_of_index_union.
Qed.

Lemma elem_of_common_dates (i1 i2 : list Z) (d : Z) :
  d ∈ common_dates i1 i2 ↔ d ∈ i1 ∧ d ∈ i2.
Proof. unfold common_dates. rewrite list_elem_of_filter. tauto. Qed.

Lemma series_sub_aligned_index (stock1 stock2 : Series) :
  series_index stock1 ≠ series_index stock2 →
  series_index (series_sub stock1 stock2)
  = index_union (series_index stock1) (series_index stock2).
Proof.
  intros E. unfold series_sub. rewrite series_binop_aligned by done.
  apply (series_index_fmap (λ d, _)).
Qed.

Lemma series_length_index (s : Series) : length (series_index s) = length s.
Proof. unfold series_index. apply length_fmap. Qed.

(** C2, as the code has it. Two price series whose indexes differ are aligned
    on the union of their dates (an outer join): the spread has one row for
    every date of either series, in ascending order; its value is price1
    minus price2 at a date both series have, and [nan] at a date only one of
    them has. No date is dropped. *)
Theorem spread_outer_join (stock1 stock2 : Series) (w : world) :
  ascending (series_index stock1) = true →
  ascending (series_index stock2) = true →
  series_index stock1 ≠ series_index stock2 →
  ∃ spread,
    raw_spread stock1 stock2 w = (w, inr spread)
    ∧ (∀ d, d ∈ series_index spread
            ↔ d ∈ series_index stock1 ∨ d ∈ series_index stock2)
    ∧ ascending (series_index spread) = true
    ∧ length spread
      = (length stock1 + length stock2
         - length (common_dates (series_index stock1) (series_index stock2)))%nat
    ∧ (∀ d x y, loc stock1 d = Some x → loc stock2 d = Some y →
                loc spread d = Some (x - y)%float)
    ∧ (∀ d, d ∈ series_index spread →
            d ∉ common_dates (series_index stock1) (series_index stock2) →
            loc spread d = Some nan).
Proof.
  intros A1 A2 E. exists (series_sub stock1 stock2).
  split; [apply raw_spread_returns|].
  pose proof (series_sub_aligned_index stock1 stock2 E) as Hidx.
  split_and!.
  - intros d. rewrite Hidx. apply elem_of_index_union.
  - rewrite Hidx. apply index_union_ascending.
  - rewrite <- series_length_index, Hidx.
    rewrite index_union_length by (by apply ascending_NoDup).
    by rewrite !series_length_index.
  - intros d x y H1 H2. rewrite spread_aligned_loc, H1, H2; [done..|].
    left. apply dec_stable. intros Hn%loc_None. congruence.
  - intros d Hd Hc. rewrite Hidx in Hd. apply elem_of_index_union in Hd.
    rewrite spread_aligned_loc by done. f_equal.
    rewrite elem_of_common_dates in Hc.
    destruct (loc stock2 d) eqn:E2.
    + assert (loc stock1 d = None) as ->.
      { apply loc_None. intros H1. apply Hc. split; [done|].
        apply dec_stable. intros Hn%loc_None. congruence. }
      apply sub_nan_l.
    + apply sub_nan_r.
Qed.

Lemma spread_outer_join_witness :
  (ascending (series_index Scenario.stock1) = true
   ∧ ascending (series_index Scenario.stock2) = true
   ∧ series_index Scenario.stock1 ≠ series_index Scenario.stock2)
  ∧ ∃ spread,
      raw_spread Scenario.stock1 Scenario.stock2 Scenario.nothing
      = (Scenario.nothing, inr spread)
      ∧ (∀ d, d ∈ series_index spread
              ↔ d ∈ series_index Scenario.stock1 ∨ d ∈ series_index Scenario.stock2).
Proof.
  assert (H1 : ascending (series_index Scenario.stock1) = true) by reflexivity.
  assert (H2 : ascending (series_index Scenario.stock2) = true) by reflexivity.
  assert (H3 : series_index Scenario.stock1 ≠ series_index Scenario.stock2)
    by (vm_compute; discriminate).
  split; [by split_and!|].
  destruct (spread_outer_join Scenario.stock1 Scenario.stock2 Scenario.nothing
              H1 H2 H3) as (spread & Hrun & Hmem & _).
  exists spread. split; [exact Hrun | exact Hmem].
Defined.

(** C2 as the specification states it does not hold: of the dates 1 to 4 of the two
    scenario series only 2 and 3 are common, yet the spread has four rows,
    and the dates 1 and 4 are kept with the value [nan]. *)
Lemma spread_keeps_unshared_dates :
  series_index Scenario.stock1 ≠ series_index Scenario.stock2
  ∧ series_sub Scenario.stock1 Scenario.stock2
    = [(1, nan); (2, 15%float); (3, 33%float); (4, nan)]
  ∧ common_dates (series_index Scenario.stock1) (series_index Scenario.stock2) = [2; 3]
  ∧ length (series_sub Scenario.stock1 Scenario.stock2)
    ≠ length (common_dates (series_index Scenario.stock1) (series_index Scenario.stock2))
  ∧ 1 ∈ series_index (series_sub Scenario.stock1 Scenario.stock2).
Proof.
  split_and!.
  - vm_compute; discriminate.
  - vm_compute; reflexivity.
  - vm_compute; reflexivity.
  - vm_compute; discriminate.
  - vm_compute. apply list_elem_of_here.
Qed.

(** C4, as the code has it. Two non-empty price series without a common
    date: line 84 raises nothing. The spread has one row for every date of
    either series, and every value in it is [nan]. *)
Theorem spread_disjoint_dates (stock1 stock2 : Series) (w : world) :
  stock1 ≠ [] → stock2 ≠ [] →
  ascending (series_index stock1) = true →
  ascending (series_index stock2) = true →
  common_dates (series_index stock1) (series_index stock2) = [] →
  ∃ spread,
    raw_spread stock1 stock2 w = (w, inr spread)
    ∧ length spread = (length stock1 + length stock2)%nat
    ∧ (∀ d, d ∈ series_index spread
            ↔ d ∈ series_index stock1 ∨ d ∈ series_index stock2)
    ∧ Forall (λ row, row.2 = nan) spread.
Proof.
  intros N1 N2 A1 A2 Hc. exists (series_sub stock1 stock2).
  split; [apply raw_spread_returns|].
  assert (Hdis : ∀ d, d ∈ series_index stock1 → d ∉ series_index stock2).
  { intros d H1 H2.
    assert (Hin : d ∈ common_dates (series_index stock1) (series_index stock2))
      by (by apply elem_of_common_dates).
    rewrite Hc in Hin. by apply elem_of_nil in Hin. }
  assert (E : series_index stock1 ≠ series_index stock2).
  { intros E. destruct stock1 as [|[d x] stock1]; [done|].
    apply (Hdis d); [apply list_elem_of_here|].
    rewrite <- E. apply list_elem_of_here. }
  pose proof (series_sub_aligned_index stock1 stock2 E) as Hidx.
  split_and!.
  - rewrite <- series_length_index, Hidx.
    rewrite index_union_length by (by apply ascending_NoDup).
    rewrite Hc, !series_length_index. simpl. lia.
  - intros d. rewrite Hidx. apply elem_of_index_union.
  - unfold series_sub. rewrite series_binop_aligned by done.
    apply Forall_fmap, Forall_forall. intros d Hd. simpl.
    apply elem_of_index_union in Hd as [H1|H2].
    + apply Hdis, loc_None in H1 as ->. apply sub_nan_r.
    + assert (loc stock1 d = None) as ->; [|apply sub_nan_l].
      apply loc_None. intros H1. by apply (Hdis d).
Qed.

Lemma spread_disjoint_dates_witness :
  (Scenario.early ≠ [] ∧ Scenario.late ≠ []
   ∧ ascending (series_index Scenario.early) = true
   ∧ ascending (series_index Scenario.late) = true
   ∧ common_dates (series_index Scenario.early) (series_index Scenario.late) = [])
  ∧ ∃ spread,
      raw_spread Scenario.early Scenario.late Scenario.nothing
      = (Scenario.nothing, inr spread)
      ∧ length spread = 4%nat.
Proof.
  assert (N1 : Scenario.early ≠ []) by discriminate.
  assert (N2 : Scenario.late ≠ []) by discriminate.
  assert (A1 : ascending (series_index Scenario.early) = true) by reflexivity.
  assert (A2 : ascending (series_index Scenario.late) = true) by reflexivity.
  assert (Hc : common_dates (series_index Scenario.early)
                 (series_index Scenario.late) = []) by (vm_compute; reflexivity).
  split; [by split_and!|].
  destruct (spread_disjoint_dates Scenario.early Scenario.late Scenario.nothing
              N1 N2 A1 A2 Hc) as (spread & Hrun & Hlen & _).
  exists spread. split; [exact Hrun | exact Hlen].
Defined.

(** C4 as the specification states it does not hold: the scenario series [early] (dates 1
    and 2) and [late] (dates 5 and 6) share no date, and line 84 returns a
    spread of four missing values instead of raising. *)
Lemma spread_disjoint_dates_no_error :
  common_dates (series_index Scenario.early) (series_index Scenario.late) = []
  ∧ raw_spread Scenario.early Scenario.late Scenario.nothing
    = (Scenario.nothing, inr [(1, nan); (2, nan); (5, nan); (6, nan)])
  ∧ raw_spread Scenario.early Scenario.late Scenario.nothing
    ≠ (Scenario.nothing, inl EmptyIntersectionError).
Proof.
  split_and!.
  - vm_compute; reflexivity.
  - vm_compute; reflexivity.
  - vm_compute; discriminate.
Qed.

(** ** The two tests *)

Lemma log_log (w : world) (evs1 evs2 : list event) :
  log (log w evs1) evs2 = log w (evs1 ++ evs2).
Proof. unfold log. simpl. by rewrite <- app_assoc. Qed.

Lemma log_nil (w : world) : log w [] = w.
Proof. destruct w. unfold log. simpl. by rewrite app_nil_r. Qed.

(** Unfolds the monad in a run and normalises the log. *)
Ltac run_script :=
  unfold mbind, M_bind, mret, M_ret, lift, print, emit; simpl;
  rewrite ?log_log; simpl.

Section Tests.
Context (lib : Library).
Implicit Types (series spread : Series) (w : world).

Lemma adf_test_returns series w r :
  adfuller lib series = inr r →
  adf_test lib series w = (log w (adf_report series r), inr (adf_p_value r)).
Proof. intros H. unfold adf_test. run_script. rewrite H. by run_script. Qed.

Lemma adf_test_raises series w e :
  adfuller lib series = inl e →
  adf_test lib series w = (log w [Called (CallAdfuller series)], inl e).
Proof. intros H. unfold adf_test. run_script. by rewrite H. Qed.

Lemma phillips_perron_test_returns series w o s p :
  PhillipsPerron lib series = inr o → stat o = inr s → pvalue o = inr p →
  phillips_perron_test lib series w = (log w (pp_report series s p), inr p).
Proof.
  intros H Hs Hp. unfold phillips_perron_test. run_script.
  rewrite H, Hs. run_script. rewrite Hp. by run_script.
Qed.

Lemma phillips_perron_test_raises series w e :
  match PhillipsPerron lib series with
  | inl e' => e' = e
  | inr o => stat o = inl e
  end →
  phillips_perron_test lib series w
  = (log w [Called (CallPhillipsPerron series)], inl e).
Proof.
  intros H. unfold phillips_perron_test. run_script.
  destruct (PhillipsPerron lib series) as [e'|o]; [by subst|]. by rewrite H.
Qed.

Lemma run_adf_returns ticker1 ticker2 spread w r :
  adfuller lib spread = inr r →
  run_adf lib ticker1 ticker2 spread w
  = (log w (adf_report spread r
            ++ [verdict_line ticker1 ticker2 "ADF Test"
                  (is_stationary (adf_p_value r) 0.3)]), inr tt).
Proof.
  intros H. unfold run_adf, mbind, M_bind.
  rewrite (adf_test_returns _ _ _ H). unfold is_stationary, verdict_line.
  destruct (adf_p_value r <? 0.3)%float; by run_script.
Qed.

Lemma run_adf_raises ticker1 ticker2 spread w e :
  adfuller lib spread = inl e →
  run_adf lib ticker1 ticker2 spread w
  = (log w [Called (CallAdfuller spread)], inl e).
Proof.
  intros H. unfold run_adf, mbind, M_bind. by rewrite (adf_test_raises _ _ _ H).
Qed.

Lemma run_phillips_perron_returns ticker1 ticker2 spread w o s p :
  PhillipsPerron lib spread = inr o → stat o = inr s → pvalue o = inr p →
  run_phillips_perron lib ticker1 ticker2 spread w
  = (log w (pp_report spread s p
            ++ [verdict_line ticker1 ticker2 "Phillips-Perron Test"
                  (is_stationary p 0.3)]), inr tt).
Proof.
  intros H Hs Hp. unfold run_phillips_perron, mbind, M_bind.
  rewrite (phillips_perron_test_returns _ _ _ _ _ H Hs Hp).
  unfold is_stationary, verdict_line.
  destruct (p <? 0.3)%float; by run_script.
Qed.

Lemma run_phillips_perron_raises ticker1 ticker2 spread w e :
  match PhillipsPerron lib spread with
  | inl e' => e' = e
  | inr o => stat o = inl e
  end →
  run_phillips_perron lib ticker1 ticker2 spread w
  = (log w [Called (CallPhillipsPerron spread)], inl e).
Proof.
  intros H. unfold run_phillips_perron, mbind, M_bind.
  by rewrite (phillips_perron_test_raises _ _ _ H).
Qed.
End Tests.

(** The two verdict lines of a test differ, whatever the tickers. *)
Lemma verdict_line_stationary (ticker1 ticker2 test : string) (b : bool) :
  verdict_line ticker1 ticker2 test b
  = Printed [Text (nl +:+ ticker1 +:+ " and " +:+ ticker2
                   +:+ " may be cointegrated (" +:+ test +:+ ").")]
  ↔ b = true.
Proof.
  split; [|by intros ->].
  destruct b; [done|]. unfold verdict_line. intros H.
  injection H as H. do 4 apply String.app_inj in H. discriminate.
Qed.

(** C1, as the code has it. The threshold is not configurable: lines 90 and 97
    compare with the literal 0.3. For every spread, whenever a test reports,
    its run ends with the verdict line of [is_stationary p 0.3], [p] being the
    p-value of that test alone; the line is the stationary one exactly when
    [p] is strictly below 0.3. The rule is the same for the ADF test and for
    the Phillips-Perron test, and neither verdict depends on the other
    test. *)
Theorem verdict_rule (lib : Library) (ticker1 ticker2 : string) (spread : Series)
    (w : world) :
  (∀ r, adfuller lib spread = inr r →
        run_adf lib ticker1 ticker2 spread w
        = (log w (adf_report spread r
                  ++ [verdict_line ticker1 ticker2 "ADF Test"
                        (is_stationary (adf_p_value r) 0.3)]), inr tt))
  ∧ (∀ o s p,
        PhillipsPerron lib spread = inr o → stat o = inr s → pvalue o = inr p →
        run_phillips_perron lib ticker1 ticker2 spread w
        = (log w (pp_report spread s p
                  ++ [verdict_line ticker1 ticker2 "Phillips-Perron Test"
                        (is_stationary p 0.3)]), inr tt))
  ∧ ∀ test q,
      verdict_line ticker1 ticker2 test (is_stationary q 0.3)
      = Printed [Text (nl +:+ ticker1 +:+ " and " +:+ ticker2
                       +:+ " may be cointegrated (" +:+ test +:+ ").")]
      ↔ (q <? 0.3)%float = true.
Proof.
  split_and!.
  - intros r Hadf. by apply run_adf_returns.
  - intros o s p Hpp Hs Hp. by apply (run_phillips_perron_returns lib _ _ _ _ o).
  - intros test q. apply verdict_line_stationary.
Qed.

(** The ADF verdict where the Phillips-Perron routine fails, and the
    Phillips-Perron verdict where the ADF routine fails. *)
Lemma verdict_rule_witness :
  (adfuller (Scenario.library_with (inl NonComputableStatistic)) Scenario.stock1
   = inr (Scenario.adf_answer 0.01)
   ∧ PhillipsPerron Scenario.adf_fails Scenario.stock1 = inr (Scenario.pp_answer 0.01)
   ∧ stat (Scenario.pp_answer 0.01) = inr (-3)%float
   ∧ pvalue (Scenario.pp_answer 0.01) = inr 0.01%float)
  ∧ run_adf (Scenario.library_with (inl NonComputableStatistic)) "AAA" "BBB"
      Scenario.stock1 Scenario.nothing
    = (log Scenario.nothing
         (adf_report Scenario.stock1 (Scenario.adf_answer 0.01)
          ++ [verdict_line "AAA" "BBB" "ADF Test" true]), inr tt)
  ∧ run_phillips_perron Scenario.adf_fails "AAA" "BBB" Scenario.stock1
      Scenario.nothing
    = (log Scenario.nothing
         (pp_report Scenario.stock1 (-3) 0.01
          ++ [verdict_line "AAA" "BBB" "Phillips-Perron Test" true]), inr tt).
Proof.
  split; [by split_and!|]. split.
  - exact (proj1 (verdict_rule (Scenario.library_with (inl NonComputableStatistic))
                    "AAA" "BBB" Scenario.stock1 Scenario.nothing)
             (Scenario.adf_answer 0.01) eq_refl).
  - exact (proj1 (proj2 (verdict_rule Scenario.adf_fails "AAA" "BBB" Scenario.stock1
                           Scenario.nothing))
             (Scenario.pp_answer 0.01) (-3)%float 0.01%float eq_refl eq_refl eq_refl).
Defined.

(** C1 as the specification states it does not hold for a threshold other
    than 0.3: with the conventional threshold 0.05 and p-values of 0.1 the
    rule [p < threshold] gives a non-stationary verdict, and the script prints
    the stationary one for both tests. *)
Lemma verdict_ignores_other_thresholds :
  is_stationary 0.1 0.05 = false
  ∧ run_adf (Scenario.library 0.1 0.1) "AAA" "BBB" Scenario.stock1 Scenario.nothing
    = (log Scenario.nothing
         (adf_report Scenario.stock1 (Scenario.adf_answer 0.1)
          ++ [verdict_line "AAA" "BBB" "ADF Test" true]), inr tt)
  ∧ run_phillips_perron (Scenario.library 0.1 0.1) "AAA" "BBB" Scenario.stock1
      Scenario.nothing
    = (log Scenario.nothing
         (pp_report Scenario.stock1 (-3) 0.1
          ++ [verdict_line "AAA" "BBB" "Phillips-Perron Test" true]), inr tt)
  ∧ verdict_line "AAA" "BBB" "ADF Test" (is_stationary 0.1 0.05)
    ≠ verdict_line "AAA" "BBB" "ADF Test" true.
Proof.
  split_and!.
  - vm_compute; reflexivity.
  - vm_compute; reflexivity.
  - vm_compute; reflexivity.
  - vm_compute; discriminate.
Qed.

(** C7. The verdict rule is monotone in the threshold: with [t1 < t2], a
    p-value that is stationary at [t1] is stationary at [t2], so lowering
    the threshold never turns a non-stationary verdict into a stationary
    one. For the script, whose threshold is 0.3: a spread that is stationary
    at a lower threshold gets the stationary ADF verdict, and a spread that
    is not stationary at a higher threshold gets the other one. *)
Theorem verdict_monotone_in_threshold (lib : Library) (ticker1 ticker2 : string)
    (spread : Series) (w : world) (r : adfuller_result) (t1 t2 : float) :
  (t1 <? t2)%float = true →
  adfuller lib spread = inr r →
  (∀ p, is_stationary p t1 = true → is_stationary p t2 = true)
  ∧ (∀ p, is_stationary p t2 = false → is_stationary p t1 = false)
  ∧ (t2 = 0.3%float → is_stationary (adf_p_value r) t1 = true →
     run_adf lib ticker1 ticker2 spread w
     = (log w (adf_report spread r
               ++ [verdict_line ticker1 ticker2 "ADF Test" true]), inr tt))
  ∧ (t1 = 0.3%float → is_stationary (adf_p_value r) t2 = false →
     run_adf lib ticker1 ticker2 spread w
     = (log w (adf_report spread r
               ++ [verdict_line ticker1 ticker2 "ADF Test" false]), inr tt)).
Proof.
  intros Ht Hadf.
  assert (Hmono : ∀ p, is_stationary p t1 = true → is_stationary p t2 = true).
  { unfold is_stationary. intros p Hp. by apply (ltb_trans p t1 t2). }
  assert (Hanti : ∀ p, is_stationary p t2 = false → is_stationary p t1 = false).
  { intros p Hp. destruct (is_stationary p t1) eqn:E; [|done].
    apply Hmono in E. congruence. }
  split_and!; [done | done | |].
  - intros -> Hp. rewrite (run_adf_returns lib _ _ _ _ _ Hadf).
    by rewrite (Hmono _ Hp).
  - intros -> Hp. rewrite (run_adf_returns lib _ _ _ _ _ Hadf).
    by rewrite (Hanti _ Hp).
Qed.

Lemma verdict_monotone_in_threshold_witness :
  ((0.05 <? 0.3)%float = true
   ∧ adfuller (Scenario.library 0.01 0.5) Scenario.stock1
     = inr (Scenario.adf_answer 0.01))
  ∧ (is_stationary 0.01 0.05 = true → is_stationary 0.01 0.3 = true)
  ∧ run_adf (Scenario.library 0.01 0.5) "AAA" "BBB" Scenario.stock1 Scenario.nothing
    = (log Scenario.nothing
         (adf_report Scenario.stock1 (Scenario.adf_answer 0.01)
          ++ [verdict_line "AAA" "BBB" "ADF Test" true]), inr tt).
Proof.
  split; [by split_and!|].
  destruct (verdict_monotone_in_threshold (Scenario.library 0.01 0.5) "AAA" "BBB"
              Scenario.stock1 Scenario.nothing (Scenario.adf_answer 0.01)
              0.05 0.3 eq_refl eq_refl) as (Hmono & _ & Hrun & _).
  split; [exact (Hmono 0.01%float) | exact (Hrun eq_refl eq_refl)].
Defined.

(** C10. A p-value exactly equal to 0.3 is not below the threshold. When the
    ADF p-value is 0.3 the ADF run takes the branch that prints
    "do not show strong cointegration", whatever the Phillips-Perron test
    does; and when the Phillips-Perron p-value is 0.3 so does the
    Phillips-Perron run, whatever the ADF test does. *)
Theorem boundary_is_not_stationary (lib : Library) (ticker1 ticker2 : string)
    (spread : Series) (w : world) :
  (∀ r, adfuller lib spread = inr r → adf_p_value r = 0.3%float →
        run_adf lib ticker1 ticker2 spread w
        = (log w (adf_report spread r
                  ++ [Printed [Text (nl +:+ ticker1 +:+ " and " +:+ ticker2
                         +:+ " do not show strong cointegration (ADF Test).")]]),
           inr tt))
  ∧ (∀ o s, PhillipsPerron lib spread = inr o → stat o = inr s →
            pvalue o = inr 0.3%float →
            run_phillips_perron lib ticker1 ticker2 spread w
            = (log w (pp_report spread s 0.3
                      ++ [Printed [Text (nl +:+ ticker1 +:+ " and " +:+ ticker2
                             +:+ " do not show strong cointegration (Phillips-Perron Test).")]]),
               inr tt)).
Proof.
  split.
  - intros r Hadf Hr. rewrite (run_adf_returns lib _ _ _ _ _ Hadf), Hr. reflexivity.
  - intros o s Hpp Hs Hp.
    rewrite (run_phillips_perron_returns lib _ _ _ _ _ _ _ Hpp Hs Hp). reflexivity.
Qed.

(** The ADF p-value at the boundary with a Phillips-Perron p-value elsewhere,
    and the other way round. *)
Lemma boundary_is_not_stationary_witness :
  (adfuller (Scenario.library 0.3 0.01) Scenario.stock1 = inr (Scenario.adf_answer 0.3)
   ∧ adf_p_value (Scenario.adf_answer 0.3) = 0.3%float
   ∧ PhillipsPerron (Scenario.library 0.01 0.3) Scenario.stock1
     = inr (Scenario.pp_answer 0.3)
   ∧ stat (Scenario.pp_answer 0.3) = inr (-3)%float
   ∧ pvalue (Scenario.pp_answer 0.3) = inr 0.3%float)
  ∧ run_adf (Scenario.library 0.3 0.01) "AAA" "BBB" Scenario.stock1 Scenario.nothing
    = (log Scenario.nothing
         (adf_report Scenario.stock1 (Scenario.adf_answer 0.3)
          ++ [Printed [Text (nl +:+ "AAA and BBB do not show strong cointegration (ADF Test).")]]),
       inr tt)
  ∧ run_phillips_perron (Scenario.library 0.01 0.3) "AAA" "BBB" Scenario.stock1
      Scenario.nothing
    = (log Scenario.nothing
         (pp_report Scenario.stock1 (-3) 0.3
          ++ [Printed [Text (nl +:+ "AAA and BBB do not show strong cointegration (Phillips-Perron Test).")]]),
       inr tt).
Proof.
  split; [by split_and!|]. split.
  - exact (proj1 (boundary_is_not_stationary (Scenario.library 0.3 0.01) "AAA" "BBB"
                    Scenario.stock1 Scenario.nothing)
             (Scenario.adf_answer 0.3) eq_refl eq_refl).
  - exact (proj2 (boundary_is_not_stationary (Scenario.library 0.01 0.3) "AAA" "BBB"
                    Scenario.stock1 Scenario.nothing)
             (Scenario.pp_answer 0.3) (-3)%float eq_refl eq_refl eq_refl).
Defined.

(** ** The two tests in sequence *)

Lemma run_tests_adf_raises (lib : Library) (ticker1 ticker2 : string)
    (spread : Series) (w : world) (e : exception) :
  adfuller lib spread = inl e →
  run_tests lib ticker1 ticker2 spread w
  = (log w [Called (CallAdfuller spread)], inl e).
Proof.
  intros H. unfold run_tests, mbind, M_bind.
  by rewrite (run_adf_raises lib _ _ _ _ _ H).
Qed.

Lemma run_tests_adf_returns (lib : Library) (ticker1 ticker2 : string)
    (spread : Series) (w : world) (r : adfuller_result) :
  adfuller lib spread = inr r →
  run_tests lib ticker1 ticker2 spread w
  = run_phillips_perron lib ticker1 ticker2 spread
      (log w (adf_report spread r
              ++ [verdict_line ticker1 ticker2 "ADF Test"
                    (is_stationary (adf_p_value r) 0.3)])).
Proof.
  intros H. unfold run_tests, mbind, M_bind.
  by rewrite (run_adf_returns lib _ _ _ _ _ H).
Qed.

(** C6, as the code has it. The two tests run one after the other on the same
    spread, the ADF test first. When the ADF routine raises, the run stops
    there with that exception and the Phillips-Perron routine is not called;
    when it returns, the Phillips-Perron test is run next, after the ADF report
    and verdict were printed, whatever that verdict is. *)
Theorem tests_run_in_sequence (lib : Library) (ticker1 ticker2 : string)
    (spread : Series) (w : world) :
  match adfuller lib spread with
  | inl e =>
      run_tests lib ticker1 ticker2 spread w
      = (log w [Called (CallAdfuller spread)], inl e)
  | inr r =>
      run_tests lib ticker1 ticker2 spread w
      = run_phillips_perron lib ticker1 ticker2 spread
          (log w (adf_report spread r
                  ++ [verdict_line ticker1 ticker2 "ADF Test"
                        (is_stationary (adf_p_value r) 0.3)]))
  end.
Proof.
  destruct (adfuller lib spread) as [e|r] eqn:H.
  - by apply run_tests_adf_raises.
  - by apply run_tests_adf_returns.
Qed.

(** C6 as the specification states it does not hold. With a library whose ADF routine fails
    and whose Phillips-Perron routine answers, the Phillips-Perron test alone
    reports its result, but lines 88 to 100 stop at the ADF failure and the
    Phillips-Perron routine is never called. *)
Lemma adf_failure_stops_phillips_perron :
  adfuller Scenario.adf_fails (Scenario.flat [1; 2; 3]) = inl NonComputableStatistic
  ∧ run_phillips_perron Scenario.adf_fails "AAA" "BBB" (Scenario.flat [1; 2; 3])
      Scenario.nothing
    = (log Scenario.nothing
         (pp_report (Scenario.flat [1; 2; 3]) (-3) 0.01
          ++ [verdict_line "AAA" "BBB" "Phillips-Perron Test" true]), inr tt)
  ∧ run_tests Scenario.adf_fails "AAA" "BBB" (Scenario.flat [1; 2; 3]) Scenario.nothing
    = ({| stdin := []; events := [Called (CallAdfuller (Scenario.flat [1; 2; 3]))] |},
       inl NonComputableStatistic)
  ∧ Called (CallPhillipsPerron (Scenario.flat [1; 2; 3]))
    ∉ events (run_tests Scenario.adf_fails "AAA" "BBB" (Scenario.flat [1; 2; 3])
                Scenario.nothing).1.
Proof.
  split_and!.
  - reflexivity.
  - vm_compute; reflexivity.
  - vm_compute; reflexivity.
  - vm_compute. intros H. apply list_elem_of_singleton in H. discriminate.
Qed.




(** ** Fetching *)

Lemma setitem_index (df : DataFrame) (col : string) (s : Series) :
  df_index (setitem df col s) = df_index df.
Proof. reflexivity. Qed.

Lemma setitem_other (df : DataFrame) (col col' : string) (s : Series) :
  col ≠ col' → df_columns (setitem df col s) !! col' = df_columns df !! col'.
Proof. intros H. unfold setitem. simpl. by rewrite lookup_insert_ne. Qed.

Lemma getitem_ext (df df' : DataFrame) (col : string) :
  df_index df = df_index df' → df_columns df !! col = df_columns df' !! col →
  getitem df col = getitem df' col.
Proof. unfold getitem. by intros -> ->. Qed.

(** A frame that [fetch_stock_data] returns is the frame [history] gave,
    which has a column of closing prices, with the same index and changed
    on the indicator columns only. *)
Lemma fetch_stock_data_frame (lib : Library) (ticker start_date end_date : string)
    (w w' : world) (data : DataFrame) :
  fetch_stock_data lib ticker start_date end_date w = (w', inr data) →
  ∃ raw close,
    history lib ticker start_date end_date = inr raw
    ∧ getitem raw "Close" = inr close
    ∧ w' = log w [Called (CallHistory ticker start_date end_date)]
    ∧ df_index data = df_index raw
    ∧ ∀ col, col ∉ indicator_columns → df_columns data !! col = df_columns raw !! col.
Proof.
  unfold fetch_stock_data. run_script.
  destruct (history lib ticker start_date end_date) as [e|raw]; [discriminate|].
  destruct (getitem raw "Close") as [e|close] eqn:Hclose; [discriminate|].
  intros H. exists raw, close. split; [done|]. split; [done|].
  repeat match type of H with
         | context [match ?x with inl _ => _ | inr _ => _ end] =>
             destruct x; [discriminate|]
         end.
  injection H as <- <-. split; [done|]. split; [done|].
  intros col Hcol. unfold indicator_columns in Hcol.
  rewrite !not_elem_of_cons in Hcol. destruct_and!.
  by rewrite !setitem_other.
Qed.

Lemma getitem_setitem_other (df : DataFrame) (col col' : string) (s : Series) :
  col ≠ col' → getitem (setitem df col s) col' = getitem df col'.
Proof. intros H. apply getitem_ext; [done | by apply setitem_other]. Qed.

Lemma getitem_setitem_same (df : DataFrame) (col : string) (s : Series) :
  ∃ s', getitem (setitem df col s) col = inr s'.
Proof. unfold getitem, setitem. simpl. rewrite lookup_insert_eq. by eexists. Qed.

(** [fetch_stock_data] returns a frame whenever the provider returns one with
    the columns Close, High and Low and the three indicators of ta return on
    the series of this frame. *)
Lemma fetch_stock_data_returns (lib : Library) (ticker start_date end_date : string)
    (w : world) (raw : DataFrame) (close high low r m a : Series) :
  history lib ticker start_date end_date = inr raw →
  getitem raw "Close" = inr close →
  getitem raw "High" = inr high →
  getitem raw "Low" = inr low →
  rsi lib close 14 = inr r →
  macd lib close = inr m →
  average_true_range lib high low close = inr a →
  ∃ data,
    fetch_stock_data lib ticker start_date end_date w
    = (log w [Called (CallHistory ticker start_date end_date)], inr data).
Proof.
  intros Hh Hc Hhi Hlo Hrsi Hmacd Hatr.
  unfold fetch_stock_data. run_script. rewrite Hh.
  repeat first
    [ rewrite !getitem_setitem_other by done
    | rewrite Hc | rewrite Hhi | rewrite Hlo
    | rewrite Hrsi | rewrite Hmacd | rewrite Hatr
    | match goal with
      | |- context [getitem (setitem ?d ?c ?s) ?c] =>
          let E := fresh "E" in
          destruct (getitem_setitem_same d c s) as [? E]; rewrite E
      end ].
  by eexists.
Qed.

Lemma fetch_close_returns (lib : Library) (ticker start_date end_date : string)
    (w w' : world) (data : DataFrame) (close : Series) :
  fetch_stock_data lib ticker start_date end_date w = (w', inr data) →
  getitem data "Close" = inr close →
  fetch_close lib ticker start_date end_date w = (w', inr close).
Proof. intros H Hc. unfold fetch_close, mbind, M_bind, lift. by rewrite H, Hc. Qed.

(** C9. The enrichment writes the indicator columns and nothing else: a frame
    that [fetch_stock_data] returns has the index of the frame the provider
    gave and the same values in every other column, the closing prices among
    them. So the closing prices the script subtracts are the raw closing
    prices, and the spread of two fetched frames is the spread of the raw
    closing prices. *)
Theorem enrichment_keeps_close (lib : Library) (ticker1 ticker2 start_date end_date : string)
    (w0 w1 w2 : world) (data1 data2 : DataFrame) :
  fetch_stock_data lib ticker1 start_date end_date w0 = (w1, inr data1) →
  fetch_stock_data lib ticker2 start_date end_date w1 = (w2, inr data2) →
  ∃ raw1 raw2 close1 close2,
    history lib ticker1 start_date end_date = inr raw1
    ∧ history lib ticker2 start_date end_date = inr raw2
    ∧ df_index data1 = df_index raw1
    ∧ df_index data2 = df_index raw2
    ∧ (∀ col, col ∉ indicator_columns →
              df_columns data1 !! col = df_columns raw1 !! col)
    ∧ (∀ col, col ∉ indicator_columns →
              df_columns data2 !! col = df_columns raw2 !! col)
    ∧ getitem raw1 "Close" = inr close1
    ∧ getitem raw2 "Close" = inr close2
    ∧ getitem data1 "Close" = inr close1
    ∧ getitem data2 "Close" = inr close2
    ∧ fetch_close lib ticker1 start_date end_date w0 = (w1, inr close1)
    ∧ fetch_close lib ticker2 start_date end_date w1 = (w2, inr close2)
    ∧ raw_spread close1 close2 w2 = (w2, inr (series_sub close1 close2)).
Proof.
  intros H1 H2.
  destruct (fetch_stock_data_frame _ _ _ _ _ _ _ H1) as (raw1 & close1 & Hh1 & Hc1 & _ & Hi1 & Hk1).
  destruct (fetch_stock_data_frame _ _ _ _ _ _ _ H2) as (raw2 & close2 & Hh2 & Hc2 & _ & Hi2 & Hk2).
  assert (Hclose : "Close" ∉ indicator_columns).
  { unfold indicator_columns. rewrite !not_elem_of_cons. split_and!; try done.
    apply not_elem_of_nil. }
  assert (Hd1 : getitem data1 "Close" = inr close1).
  { rewrite <- Hc1. apply getitem_ext; [done | by apply Hk1]. }
  assert (Hd2 : getitem data2 "Close" = inr close2).
  { rewrite <- Hc2. apply getitem_ext; [done | by apply Hk2]. }
  exists raw1, raw2, close1, close2. split_and!; try done.
  - by apply (fetch_close_returns lib _ _ _ _ _ data1).
  - by apply (fetch_close_returns lib _ _ _ _ _ data2).
Qed.

Lemma enrichment_keeps_close_witness :
  (fetch_stock_data (Scenario.library 0.01 0.5) "AAA" "2024-01-01" "2024-02-01"
     Scenario.nothing
   = (log Scenario.nothing [Called (CallHistory "AAA" "2024-01-01" "2024-02-01")],
      inr (Scenario.enriched "AAA"))
   ∧ fetch_stock_data (Scenario.library 0.01 0.5) "BBB" "2024-01-01" "2024-02-01"
       (log Scenario.nothing [Called (CallHistory "AAA" "2024-01-01" "2024-02-01")])
     = (log Scenario.nothing [Called (CallHistory "AAA" "2024-01-01" "2024-02-01");
                              Called (CallHistory "BBB" "2024-01-01" "2024-02-01")],
        inr (Scenario.enriched "BBB")))
  ∧ ∃ close1 close2,
      getitem Scenario.aaa "Close" = inr close1
      ∧ getitem Scenario.other "Close" = inr close2
      ∧ getitem (Scenario.enriched "AAA") "Close" = inr close1
      ∧ getitem (Scenario.enriched "BBB") "Close" = inr close2.
Proof.
  assert (H1 : fetch_stock_data (Scenario.library 0.01 0.5) "AAA" "2024-01-01"
                 "2024-02-01" Scenario.nothing
               = (log Scenario.nothing
                    [Called (CallHistory "AAA" "2024-01-01" "2024-02-01")],
                  inr (Scenario.enriched "AAA"))) by (vm_compute; reflexivity).
  assert (H2 : fetch_stock_data (Scenario.library 0.01 0.5) "BBB" "2024-01-01"
                 "2024-02-01"
                 (log Scenario.nothing
                    [Called (CallHistory "AAA" "2024-01-01" "2024-02-01")])
               = (log Scenario.nothing
                    [Called (CallHistory "AAA" "2024-01-01" "2024-02-01");
                     Called (CallHistory "BBB" "2024-01-01" "2024-02-01")],
                  inr (Scenario.enriched "BBB"))) by (vm_compute; reflexivity).
  split; [by split|].
  destruct (enrichment_keeps_close _ _ _ _ _ _ _ _ _ _ H1 H2)
    as (raw1 & raw2 & close1 & close2 & Hh1 & Hh2 & _ & _ & _ & _
        & Hr1 & Hr2 & Hd1 & Hd2 & _).
  injection Hh1 as <-. injection Hh2 as <-.
  exists close1, close2. by split_and!.
Defined.

(** ** A run of the whole script *)

(** The tickers are read and upper-cased, both frames are fetched, the spread
    is taken on the union of the dates, and both tests report. *)
Example main_runs :
  main (Scenario.library 0.01 0.5) Scenario.keyboard
  = ({| stdin := [];
        events :=
          [ Prompt "Enter first stock ticker for pair testing: ";
            Prompt "Enter second stock ticker for pair testing: ";
            Prompt "Enter start date (YYYY-MM-DD): ";
            Prompt "Enter end date (YYYY-MM-DD): ";
            Called (CallHistory "AAA" "2024-01-01" "2024-02-01");
            Called (CallHistory "BBB" "2024-01-01" "2024-02-01");
            Printed [Text (nl +:+ "Spread Summary:")];
            Printed [Described [(1, nan); (2, 15%float); (3, 33%float); (4, nan)]] ]
          ++ adf_report [(1, nan); (2, 15%float); (3, 33%float); (4, nan)]
               (Scenario.adf_answer 0.01)
          ++ [verdict_line "AAA" "BBB" "ADF Test" true]
          ++ pp_report [(1, nan); (2, 15%float); (3, 33%float); (4, nan)] (-3) 0.5
          ++ [verdict_line "AAA" "BBB" "Phillips-Perron Test" false] |},
     inr tt).
Proof. vm_compute. reflexivity. Qed.

(** At the end of the input the script stops with [EOFError]. *)
Example main_without_input :
  main (Scenario.library 0.01 0.5) Scenario.nothing
  = ({| stdin := [];
        events := [Prompt "Enter first stock ticker for pair testing: "] |},
     inl EOFError).
Proof. vm_compute. reflexivity. Qed.

(** * Further properties of the script *)

(** ** The spread, date by date *)

Lemma zip_with_loc (op : float → float → float) (a b : Series) (d : Z) (x y : float) :
  series_index a = series_index b →
  loc a d = Some x → loc b d = Some y →
  loc (zip_with (λ r1 r2 : Z * float, (r1.1, op r1.2 r2.2)) a b) d = Some (op x y).
Proof.
  unfold series_index. revert b.
  induction a as [|[da xa] a IH]; intros [|[db yb] b] E Ha Hb; try done.
  csimpl in *. injection E as <- E.
  destruct (decide (da = d)) as [->|Hne].
  - by simplify_eq.
  - by apply IH.
Qed.

Lemma index_union_comm (i1 i2 : list Z) : index_union i1 i2 = index_union i2 i1.
Proof.
  apply (Sorted_unique_strong Z.lt).
  - intros x1 x2 _ _ ??. lia.
  - apply ascending_Sorted, index_union_ascending.
  - apply ascending_Sorted, index_union_ascending.
  - apply NoDup_Permutation.
    + apply ascending_NoDup, index_union_ascending.
    + apply ascending_NoDup, index_union_ascending.
    + intros d. rewrite !elem_of_index_union. tauto.
Qed.

Lemma series_sub_same_index (stock1 stock2 : Series) :
  series_index stock1 = series_index stock2 →
  series_index (series_sub stock1 stock2) = series_index stock1.
Proof.
  intros E. unfold series_sub. rewrite series_binop_same_index by done.
  by apply zip_with_rows.
Qed.

(** At a date for which both price series (dates strictly ascending) have a
    price, the spread of line 84 is the first price minus the second, whether
    or not the two indexes are equal; a price that is [nan] on either side
    gives [nan]. *)
Theorem spread_at_common_date (stock1 stock2 : Series) (d : Z) (x y : float) :
  ascending (series_index stock1) = true →
  ascending (series_index stock2) = true →
  loc stock1 d = Some x → loc stock2 d = Some y →
  loc (series_sub stock1 stock2) d = Some (x - y)%float
  ∧ (x = nan ∨ y = nan → loc (series_sub stock1 stock2) d = Some nan).
Proof.
  intros _ _ H1 H2.
  assert (H : loc (series_sub stock1 stock2) d = Some (x - y)%float).
  { destruct (decide (series_index stock1 = series_index stock2)) as [E|E].
    - unfold series_sub. rewrite series_binop_same_index by done.
      by apply zip_with_loc.
    - rewrite spread_aligned_loc, H1, H2; [done..|].
      left. apply dec_stable. intros Hn%loc_None. congruence. }
  split; [done|].
  intros [->| ->]; rewrite H; f_equal; [apply sub_nan_l | apply sub_nan_r].
Qed.

Lemma spread_at_common_date_witness :
  (ascending (series_index Scenario.stock1) = true
   ∧ ascending (series_index Scenario.stock2) = true
   ∧ loc Scenario.stock1 2 = Some 20%float ∧ loc Scenario.stock2 2 = Some 5%float)
  ∧ loc (series_sub Scenario.stock1 Scenario.stock2) 2 = Some 15%float.
Proof.
  split; [by split_and!|].
  exact (proj1 (spread_at_common_date Scenario.stock1 Scenario.stock2 2 20 5
                  eq_refl eq_refl eq_refl eq_refl)).
Defined.

(** The spread of two price series (dates strictly ascending in both) is again
    indexed by strictly ascending dates, without a duplicate date. *)
Theorem spread_is_ascending (stock1 stock2 : Series) :
  ascending (series_index stock1) = true →
  ascending (series_index stock2) = true →
  ascending (series_index (series_sub stock1 stock2)) = true
  ∧ NoDup (series_index (series_sub stock1 stock2)).
Proof.
  intros A1 _.
  assert (H : ascending (series_index (series_sub stock1 stock2)) = true).
  { destruct (decide (series_index stock1 = series_index stock2)) as [E|E].
    - by rewrite series_sub_same_index.
    - rewrite series_sub_aligned_index by done. apply index_union_ascending. }
  split; [done | by apply ascending_NoDup].
Qed.

Lemma spread_is_ascending_witness :
  (ascending (series_index Scenario.stock1) = true
   ∧ ascending (series_index Scenario.stock2) = true)
  ∧ ascending (series_index (series_sub Scenario.stock1 Scenario.stock2)) = true.
Proof.
  split; [by split|].
  exact (proj1 (spread_is_ascending Scenario.stock1 Scenario.stock2 eq_refl eq_refl)).
Defined.

(** Exchanging two price series (dates strictly ascending in both) leaves the
    dates of the spread unchanged. *)
Theorem spread_dates_symmetric (stock1 stock2 : Series) :
  ascending (series_index stock1) = true →
  ascending (series_index stock2) = true →
  series_index (series_sub stock1 stock2) = series_index (series_sub stock2 stock1)
  ∧ length (series_sub stock1 stock2) = length (series_sub stock2 stock1).
Proof.
  intros _ _.
  assert (H : series_index (series_sub stock1 stock2)
              = series_index (series_sub stock2 stock1)).
  { destruct (decide (series_index stock1 = series_index stock2)) as [E|E].
    - rewrite !series_sub_same_index by done. done.
    - rewrite !series_sub_aligned_index by done. apply index_union_comm. }
  split; [done|]. by rewrite <- !series_length_index, H.
Qed.

Lemma spread_dates_symmetric_witness :
  (ascending (series_index Scenario.stock1) = true
   ∧ ascending (series_index Scenario.stock2) = true)
  ∧ series_index (series_sub Scenario.stock1 Scenario.stock2)
    = series_index (series_sub Scenario.stock2 Scenario.stock1).
Proof.
  split; [by split|].
  exact (proj1 (spread_dates_symmetric Scenario.stock1 Scenario.stock2
                  eq_refl eq_refl)).
Defined.

(** No date is lost: the spread of two price series has at least as many rows
    as the longer of the two and at most as many as both together. *)
Theorem spread_length_bounds (stock1 stock2 : Series) :
  ascending (series_index stock1) = true →
  ascending (series_index stock2) = true →
  (length stock1 ≤ length (series_sub stock1 stock2))%nat
  ∧ (length stock2 ≤ length (series_sub stock1 stock2))%nat
  ∧ (length (series_sub stock1 stock2) ≤ length stock1 + length stock2)%nat.
Proof.
  intros A1%ascending_NoDup A2%ascending_NoDup.
  rewrite <- !series_length_index.
  destruct (decide (series_index stock1 = series_index stock2)) as [E|E].
  - rewrite series_sub_same_index by done. rewrite <- E. lia.
  - rewrite series_sub_aligned_index by done.
    assert (H1 : series_index stock1
                 ⊆+ index_union (series_index stock1) (series_index stock2)).
    { apply NoDup_submseteq; [done|]. intros d ?. apply elem_of_index_union. tauto. }
    assert (H2 : series_index stock2
                 ⊆+ index_union (series_index stock1) (series_index stock2)).
    { apply NoDup_submseteq; [done|]. intros d ?. apply elem_of_index_union. tauto. }
    apply submseteq_length in H1, H2.
    split_and!; [done | done |]. rewrite index_union_length by done. lia.
Qed.

Lemma spread_length_bounds_witness :
  (ascending (series_index Scenario.stock1) = true
   ∧ ascending (series_index Scenario.stock2) = true)
  ∧ (length Scenario.stock1 ≤ length (series_sub Scenario.stock1 Scenario.stock2))%nat.
Proof.
  split; [by split|].
  exact (proj1 (spread_length_bounds Scenario.stock1 Scenario.stock2 eq_refl eq_refl)).
Defined.

(** ** What [fetch_stock_data] returns *)

(** A returned frame is the provider's frame after ten assignments, one for
    each indicator column. *)
Lemma fetch_stock_data_shape (lib : Library) (ticker start_date end_date : string)
    (w w' : world) (data : DataFrame) :
  fetch_stock_data lib ticker start_date end_date w = (w', inr data) →
  ∃ raw s1 s2 s3 s4 s5 s6 s7 s8 s9 s10,
    history lib ticker start_date end_date = inr raw
    ∧ data =
        setitem (setitem (setitem (setitem (setitem (setitem (setitem (setitem
          (setitem (setitem raw "Rolling_Mean" s1) "Rolling_Std" s2) "Z_Score" s3)
          "Bollinger_High" s4) "Bollinger_Low" s5) "RSI" s6) "SMA_50" s7)
          "EMA_50" s8) "MACD" s9) "ATR" s10.
Proof.
  unfold fetch_stock_data. run_script.
  destruct (history lib ticker start_date end_date) as [e|raw]; [discriminate|].
  intros H.
  repeat match type of H with
         | context [match ?x with inl _ => _ | inr _ => _ end] =>
             destruct x; [discriminate|]
         end.
  injection H as <- <-. by repeat eexists.
Qed.

Lemma setitem_well_formed (df : DataFrame) (col : string) (s : Series) :
  well_formed df → well_formed (setitem df col s).
Proof.
  intros Hwf col' vs. unfold setitem. simpl.
  destruct (decide (col = col')) as [->|Hne].
  - rewrite lookup_insert_eq. intros [= <-].
    destruct (decide (series_index s = df_index df)) as [E|E].
    + rewrite <- E. unfold series_values, series_index. by rewrite !length_fmap.
    + unfold series_values, reindex. by rewrite !length_fmap.
  - rewrite lookup_insert_ne by done. apply Hwf.
Qed.

Lemma setitem_dom (df : DataFrame) (col : string) (s : Series) :
  dom (df_columns (setitem df col s)) = {[col]} ∪ dom (df_columns df).
Proof. unfold setitem. simpl. apply dom_insert_L. Qed.

(** The enrichment keeps a frame well formed: when every column of the
    provider's frame has one value per row, so has every column of the frame
    [fetch_stock_data] returns, the ten indicator columns included. *)
Theorem fetch_stock_data_well_formed (lib : Library)
    (ticker start_date end_date : string) (w w' : world) (raw data : DataFrame) :
  history lib ticker start_date end_date = inr raw →
  well_formed raw →
  fetch_stock_data lib ticker start_date end_date w = (w', inr data) →
  well_formed data
  ∧ ∀ col, col ∈ indicator_columns →
      ∃ vs, df_columns data !! col = Some vs ∧ length vs = length (df_index raw).
Proof.
  intros Hh Hwf H.
  destruct (fetch_stock_data_shape _ _ _ _ _ _ _ H)
    as (raw' & s1 & s2 & s3 & s4 & s5 & s6 & s7 & s8 & s9 & s10 & Hh' & ->).
  rewrite Hh in Hh'. injection Hh' as <-.
  assert (Hwf' : well_formed
    (setitem (setitem (setitem (setitem (setitem (setitem (setitem (setitem
      (setitem (setitem raw "Rolling_Mean" s1) "Rolling_Std" s2) "Z_Score" s3)
      "Bollinger_High" s4) "Bollinger_Low" s5) "RSI" s6) "SMA_50" s7)
      "EMA_50" s8) "MACD" s9) "ATR" s10))
    by (by repeat apply setitem_well_formed).
  split; [done|].
  intros col Hcol.
  assert (Hin : col ∈ dom (df_columns
    (setitem (setitem (setitem (setitem (setitem (setitem (setitem (setitem
      (setitem (setitem raw "Rolling_Mean" s1) "Rolling_Std" s2) "Z_Score" s3)
      "Bollinger_High" s4) "Bollinger_Low" s5) "RSI" s6) "SMA_50" s7)
      "EMA_50" s8) "MACD" s9) "ATR" s10))).
  { rewrite !setitem_dom, !elem_of_union, !elem_of_singleton.
    unfold indicator_columns in Hcol. rewrite !elem_of_cons, elem_of_nil in Hcol.
    tauto. }
  apply elem_of_dom in Hin as [vs Hvs]. exists vs. split; [done|].
  by apply Hwf' in Hvs.
Qed.

Lemma fetch_stock_data_well_formed_witness :
  (history (Scenario.library 0.01 0.5) "AAA" "2024-01-01" "2024-02-01"
   = inr Scenario.aaa
   ∧ well_formed Scenario.aaa
   ∧ fetch_stock_data (Scenario.library 0.01 0.5) "AAA" "2024-01-01" "2024-02-01"
       Scenario.nothing
     = (log Scenario.nothing [Called (CallHistory "AAA" "2024-01-01" "2024-02-01")],
        inr (Scenario.enriched "AAA")))
  ∧ well_formed (Scenario.enriched "AAA").
Proof.
  assert (Hwf : well_formed Scenario.aaa).
  { intros col vs. unfold Scenario.aaa, Scenario.frame. simpl.
    intros H. apply lookup_insert_Some in H as [[_ <-]|[_ H]]; [done|].
    apply lookup_insert_Some in H as [[_ <-]|[_ H]]; [done|].
    apply lookup_singleton_Some in H as [_ <-]. done. }
  assert (H : fetch_stock_data (Scenario.library 0.01 0.5) "AAA" "2024-01-01"
                "2024-02-01" Scenario.nothing
              = (log Scenario.nothing
                   [Called (CallHistory "AAA" "2024-01-01" "2024-02-01")],
                 inr (Scenario.enriched "AAA"))) by (vm_compute; reflexivity).
  split; [by split_and!|].
  exact (proj1 (fetch_stock_data_well_formed (Scenario.library 0.01 0.5) "AAA"
                  "2024-01-01" "2024-02-01" Scenario.nothing _ Scenario.aaa _
                  eq_refl Hwf H)).
Defined.

(** The columns of a returned frame are the provider's columns and the ten
    indicator columns: none is removed, and none but an indicator is added. *)
Theorem fetch_stock_data_columns (lib : Library)
    (ticker start_date end_date : string) (w w' : world) (raw data : DataFrame) :
  history lib ticker start_date end_date = inr raw →
  fetch_stock_data lib ticker start_date end_date w = (w', inr data) →
  dom (df_columns data) = dom (df_columns raw) ∪ list_to_set indicator_columns.
Proof.
  intros Hh H.
  destruct (fetch_stock_data_shape _ _ _ _ _ _ _ H)
    as (raw' & s1 & s2 & s3 & s4 & s5 & s6 & s7 & s8 & s9 & s10 & Hh' & ->).
  rewrite Hh in Hh'. injection Hh' as <-.
  rewrite !setitem_dom. apply set_eq. intros col.
  rewrite !elem_of_union, !elem_of_singleton, elem_of_list_to_set.
  unfold indicator_columns. rewrite !elem_of_cons, elem_of_nil. tauto.
Qed.

Lemma fetch_stock_data_columns_witness :
  (history (Scenario.library 0.01 0.5) "AAA" "2024-01-01" "2024-02-01"
   = inr Scenario.aaa
   ∧ fetch_stock_data (Scenario.library 0.01 0.5) "AAA" "2024-01-01" "2024-02-01"
       Scenario.nothing
     = (log Scenario.nothing [Called (CallHistory "AAA" "2024-01-01" "2024-02-01")],
        inr (Scenario.enriched "AAA")))
  ∧ dom (df_columns (Scenario.enriched "AAA"))
    = dom (df_columns Scenario.aaa) ∪ list_to_set indicator_columns.
Proof.
  assert (H : fetch_stock_data (Scenario.library 0.01 0.5) "AAA" "2024-01-01"
                "2024-02-01" Scenario.nothing
              = (log Scenario.nothing
                   [Called (CallHistory "AAA" "2024-01-01" "2024-02-01")],
                 inr (Scenario.enriched "AAA"))) by (vm_compute; reflexivity).
  split; [by split|].
  exact (fetch_stock_data_columns (Scenario.library 0.01 0.5) "AAA" "2024-01-01"
           "2024-02-01" Scenario.nothing _ Scenario.aaa _ eq_refl H).
Defined.

(** ** The indicator columns *)

Lemma getitem_setitem_eq (df : DataFrame) (col : string) (s : Series) :
  series_index s = df_index df → getitem (setitem df col s) col = inr s.
Proof.
  intros E. unfold getitem, setitem. simpl. rewrite lookup_insert_eq.
  rewrite decide_True by done. rewrite <- E.
  unfold series_index, series_values. by rewrite zip_fst_snd.
Qed.

Lemma getitem_index (df : DataFrame) (col : string) (s : Series) :
  well_formed df → getitem df col = inr s → series_index s = df_index df.
Proof.
  intros Hwf. unfold getitem. destruct (df_columns df !! col) as [vs|] eqn:E; [|done].
  intros [= <-]. unfold series_index. apply fst_zip. rewrite (Hwf _ _ E). lia.
Qed.

Lemma series_binop_index (op : float → float → float) (a b : Series) :
  series_index a = series_index b →
  series_index (series_binop op a b) = series_index a.
Proof.
  intros E. rewrite series_binop_same_index by done. by apply zip_with_rows.
Qed.

Lemma series_binop_loc (op : float → float → float) (a b : Series) (d : Z) (x y : float) :
  series_index a = series_index b →
  loc a d = Some x → loc b d = Some y →
  loc (series_binop op a b) d = Some (op x y).
Proof.
  intros E Ha Hb. rewrite series_binop_same_index by done. by apply zip_with_loc.
Qed.

Lemma series_mul_scalar_index (s : Series) (k : float) :
  series_index (series_mul_scalar s k) = series_index s.
Proof.
  unfold series_index, series_mul_scalar. rewrite <- list_fmap_compose.
  by apply list_fmap_ext.
Qed.

Lemma series_mul_scalar_loc (s : Series) (k : float) (d : Z) (x : float) :
  loc s d = Some x → loc (series_mul_scalar s k) d = Some (x * k)%float.
Proof.
  unfold series_mul_scalar. induction s as [|[d' v] s IH]; [done|]. csimpl.
  destruct (decide (d' = d)); [by intros [= ->] | done].
Qed.

(** A provider's frame with closing, high and low prices on its index, rolling
    windows that keep the index of the series they are given, and indicators
    of ta that return. *)
Section Fetch.
Context (lib : Library) (ticker start_date end_date : string) (raw : DataFrame).
Context (close high low r m a : Series).
Hypothesis Hh : history lib ticker start_date end_date = inr raw.
Hypothesis Hc : getitem raw "Close" = inr close.
Hypothesis Hi : series_index close = df_index raw.
Hypothesis Hhi : getitem raw "High" = inr high.
Hypothesis Hlo : getitem raw "Low" = inr low.
Hypothesis Hmean : ∀ n s, series_index (rolling_mean lib n s) = series_index s.
Hypothesis Hstd : ∀ n s, series_index (rolling_std lib n s) = series_index s.
Hypothesis Hewm : ∀ n s, series_index (ewm_mean lib n s) = series_index s.
Hypothesis Hrsi : rsi lib close 14 = inr r.
Hypothesis Hmacd : macd lib close = inr m.
Hypothesis Hatr : average_true_range lib high low close = inr a.

Lemma fetch_stock_data_run (w : world) :
  fetch_stock_data lib ticker start_date end_date w
  = (log w [Called (CallHistory ticker start_date end_date)],
     inr (setitem (setitem (setitem (setitem (setitem (setitem (setitem (setitem
       (setitem (setitem raw
          "Rolling_Mean" (rolling_mean lib 20 close))
          "Rolling_Std" (rolling_std lib 20 close))
          "Z_Score" (series_div (series_sub close (rolling_mean lib 20 close))
                       (rolling_std lib 20 close)))
          "Bollinger_High" (series_add (rolling_mean lib 20 close)
                              (series_mul_scalar (rolling_std lib 20 close) 2)))
          "Bollinger_Low" (series_sub (rolling_mean lib 20 close)
                             (series_mul_scalar (rolling_std lib 20 close) 2)))
          "RSI" r)
          "SMA_50" (rolling_mean lib 50 close))
          "EMA_50" (ewm_mean lib 50 close))
          "MACD" m)
          "ATR" a)).
Proof using Hh Hc Hi Hhi Hlo Hmean Hstd Hrsi Hmacd Hatr.
  unfold fetch_stock_data. run_script. rewrite Hh.
  repeat first
    [ rewrite !getitem_setitem_other by done
    | rewrite getitem_setitem_eq by (simpl; rewrite ?Hmean, ?Hstd; exact Hi)
    | rewrite Hc | rewrite Hhi | rewrite Hlo
    | rewrite Hrsi | rewrite Hmacd | rewrite Hatr ].
  reflexivity.
Qed.

(** Uses the indexes of the series to read a column back. *)
Ltac read_column :=
  rewrite ?getitem_setitem_other by done;
  apply getitem_setitem_eq; simpl;
  unfold series_sub, series_add, series_div;
  rewrite ?series_binop_index, ?series_mul_scalar_index, ?Hmean, ?Hstd, ?Hewm;
  rewrite ?series_binop_index, ?series_mul_scalar_index, ?Hmean, ?Hstd, ?Hewm;
  try done.

(** What the pandas columns of a returned frame hold: the 20-day rolling mean
    and standard deviation of the closing price, their z-score
    (Close - mean) / std, the Bollinger bands mean + 2 std and mean - 2 std,
    the 50-day simple and exponential moving averages. A later assignment
    never overwrites an earlier column. *)
Theorem fetch_stock_data_indicators (w : world) :
  ∃ data,
    fetch_stock_data lib ticker start_date end_date w
    = (log w [Called (CallHistory ticker start_date end_date)], inr data)
    ∧ getitem data "Rolling_Mean" = inr (rolling_mean lib 20 close)
    ∧ getitem data "Rolling_Std" = inr (rolling_std lib 20 close)
    ∧ getitem data "Z_Score"
      = inr (series_div (series_sub close (rolling_mean lib 20 close))
               (rolling_std lib 20 close))
    ∧ getitem data "Bollinger_High"
      = inr (series_add (rolling_mean lib 20 close)
               (series_mul_scalar (rolling_std lib 20 close) 2))
    ∧ getitem data "Bollinger_Low"
      = inr (series_sub (rolling_mean lib 20 close)
               (series_mul_scalar (rolling_std lib 20 close) 2))
    ∧ getitem data "SMA_50" = inr (rolling_mean lib 50 close)
    ∧ getitem data "EMA_50" = inr (ewm_mean lib 50 close).
Proof using All.
  eexists. split; [apply fetch_stock_data_run|].
  split_and!; read_column.
Qed.

(** Date by date: where the closing price is [c], its rolling mean [mu] and
    its rolling deviation [sigma], the returned frame has the z-score
    (c - mu) / sigma and the Bollinger bands mu + sigma * 2 and
    mu - sigma * 2. *)
Theorem fetch_stock_data_bands_at_date (w : world) (d : Z) (c mu sigma : float) :
  loc close d = Some c →
  loc (rolling_mean lib 20 close) d = Some mu →
  loc (rolling_std lib 20 close) d = Some sigma →
  ∃ data z_score bollinger_high bollinger_low,
    fetch_stock_data lib ticker start_date end_date w
    = (log w [Called (CallHistory ticker start_date end_date)], inr data)
    ∧ getitem data "Z_Score" = inr z_score
    ∧ getitem data "Bollinger_High" = inr bollinger_high
    ∧ getitem data "Bollinger_Low" = inr bollinger_low
    ∧ loc z_score d = Some ((c - mu) / sigma)%float
    ∧ loc bollinger_high d = Some (mu + sigma * 2)%float
    ∧ loc bollinger_low d = Some (mu - sigma * 2)%float.
Proof using Hh Hc Hi Hhi Hlo Hmean Hstd Hrsi Hmacd Hatr.
  intros Hcd Hmu Hsigma. eexists _, _, _, _.
  split; [apply fetch_stock_data_run|].
  split_and!; [read_column | read_column | read_column | | |].
  - unfold series_div, series_sub.
    apply series_binop_loc; [by rewrite series_binop_index, ?Hmean, ?Hstd | | done].
    apply series_binop_loc; [by rewrite Hmean | done | done].
  - unfold series_add.
    apply series_binop_loc; [by rewrite series_mul_scalar_index, Hmean, Hstd | done |].
    by apply series_mul_scalar_loc.
  - unfold series_sub.
    apply series_binop_loc; [by rewrite series_mul_scalar_index, Hmean, Hstd | done |].
    by apply series_mul_scalar_loc.
Qed.
End Fetch.

Lemma fetch_stock_data_indicators_witness :
  (history (Scenario.library 0.01 0.5) "AAA" "2024-01-01" "2024-02-01"
   = inr Scenario.aaa
   ∧ getitem Scenario.aaa "Close" = inr Scenario.stock1
   ∧ series_index Scenario.stock1 = df_index Scenario.aaa
   ∧ getitem Scenario.aaa "High" = inr Scenario.stock1
   ∧ getitem Scenario.aaa "Low" = inr Scenario.stock1
   ∧ (∀ n s, series_index (rolling_mean (Scenario.library 0.01 0.5) n s)
             = series_index s)
   ∧ (∀ n s, series_index (rolling_std (Scenario.library 0.01 0.5) n s)
             = series_index s)
   ∧ (∀ n s, series_index (ewm_mean (Scenario.library 0.01 0.5) n s)
             = series_index s)
   ∧ rsi (Scenario.library 0.01 0.5) Scenario.stock1 14 = inr Scenario.stock1
   ∧ macd (Scenario.library 0.01 0.5) Scenario.stock1 = inr Scenario.stock1
   ∧ average_true_range (Scenario.library 0.01 0.5) Scenario.stock1 Scenario.stock1
       Scenario.stock1 = inr Scenario.stock1)
  ∧ ∃ data,
      fetch_stock_data (Scenario.library 0.01 0.5) "AAA" "2024-01-01" "2024-02-01"
        Scenario.nothing
      = (log Scenario.nothing [Called (CallHistory "AAA" "2024-01-01" "2024-02-01")],
         inr data)
      ∧ getitem data "Bollinger_High"
        = inr [(1, 30%float); (2, 60%float); (3, 120%float)].
Proof.
  split; [by split_and!|].
  destruct (fetch_stock_data_indicators (Scenario.library 0.01 0.5) "AAA"
              "2024-01-01" "2024-02-01" Scenario.aaa Scenario.stock1 Scenario.stock1
              Scenario.stock1 Scenario.stock1 Scenario.stock1 Scenario.stock1
              eq_refl eq_refl eq_refl eq_refl eq_refl
              (λ _ _, eq_refl) (λ _ _, eq_refl) (λ _ _, eq_refl)
              eq_refl eq_refl eq_refl Scenario.nothing)
    as (data & Hrun & _ & _ & _ & Hbh & _).
  exists data. split; [exact Hrun | exact Hbh].
Defined.

Lemma fetch_stock_data_bands_at_date_witness :
  (loc Scenario.stock1 2 = Some 20%float
   ∧ loc (rolling_mean (Scenario.library 0.01 0.5) 20 Scenario.stock1) 2
     = Some 20%float
   ∧ loc (rolling_std (Scenario.library 0.01 0.5) 20 Scenario.stock1) 2
     = Some 20%float)
  ∧ ∃ data bollinger_low,
      fetch_stock_data (Scenario.library 0.01 0.5) "AAA" "2024-01-01" "2024-02-01"
        Scenario.nothing
      = (log Scenario.nothing [Called (CallHistory "AAA" "2024-01-01" "2024-02-01")],
         inr data)
      ∧ getitem data "Bollinger_Low" = inr bollinger_low
      ∧ loc bollinger_low 2 = Some (-20)%float.
Proof.
  split; [by split_and!|].
  destruct (fetch_stock_data_bands_at_date (Scenario.library 0.01 0.5) "AAA"
              "2024-01-01" "2024-02-01" Scenario.aaa Scenario.stock1 Scenario.stock1
              Scenario.stock1 Scenario.stock1 Scenario.stock1 Scenario.stock1
              eq_refl eq_refl eq_refl eq_refl eq_refl
              (λ _ _, eq_refl) (λ _ _, eq_refl)
              eq_refl eq_refl eq_refl Scenario.nothing 2 20 20 20
              eq_refl eq_refl eq_refl)
    as (data & z & bh & bl & Hrun & _ & _ & Hbl & _ & _ & Hloc).
  exists data, bl. split_and!; [exact Hrun | exact Hbl | exact Hloc].
Defined.

(** ** Failures of [fetch_stock_data] *)

(** A failure of the provider is passed on as it is; a frame without a Close
    column gives [KeyError] for Close. In both cases the provider was called
    once and nothing else happened. *)
Theorem fetch_stock_data_fails_early (lib : Library)
    (ticker start_date end_date : string) (w : world) :
  match history lib ticker start_date end_date with
  | inl e =>
      fetch_stock_data lib ticker start_date end_date w
      = (log w [Called (CallHistory ticker start_date end_date)], inl e)
  | inr raw =>
      df_columns raw !! "Close" = None →
      fetch_stock_data lib ticker start_date end_date w
      = (log w [Called (CallHistory ticker start_date end_date)],
         inl (KeyError "Close"))
  end.
Proof.
  unfold fetch_stock_data. run_script.
  destruct (history lib ticker start_date end_date) as [e|raw]; [done|].
  intros H. unfold getitem. by rewrite H.
Qed.

(** A frame with closing prices but without the High column, or without the
    Low column, makes [fetch_stock_data] raise [KeyError] for that column when
    it comes to the average true range: no frame is returned, although the
    nine other indicators were computed. *)
Theorem fetch_stock_data_needs_high_low (lib : Library)
    (ticker start_date end_date : string) (w : world) (raw : DataFrame)
    (close r m : Series) :
  history lib ticker start_date end_date = inr raw →
  getitem raw "Close" = inr close →
  rsi lib close 14 = inr r →
  macd lib close = inr m →
  (df_columns raw !! "High" = None →
   fetch_stock_data lib ticker start_date end_date w
   = (log w [Called (CallHistory ticker start_date end_date)], inl (KeyError "High")))
  ∧ (is_Some (df_columns raw !! "High") → df_columns raw !! "Low" = None →
     fetch_stock_data lib ticker start_date end_date w
     = (log w [Called (CallHistory ticker start_date end_date)], inl (KeyError "Low"))).
Proof.
  intros Hh Hc Hrsi Hmacd.
  split.
  - intros Hhi. unfold fetch_stock_data. run_script. rewrite Hh.
    repeat first
      [ rewrite !getitem_setitem_other by done
      | rewrite Hc | rewrite Hrsi | rewrite Hmacd
      | match goal with
        | |- context [getitem (setitem ?d ?c ?s) ?c] =>
            let E := fresh "E" in
            destruct (getitem_setitem_same d c s) as [? E]; rewrite E
        end ].
    unfold getitem. by rewrite Hhi.
  - intros [vs Hhi] Hlo. unfold fetch_stock_data. run_script. rewrite Hh.
    repeat first
      [ rewrite !getitem_setitem_other by done
      | rewrite Hc | rewrite Hrsi | rewrite Hmacd
      | match goal with
        | |- context [getitem (setitem ?d ?c ?s) ?c] =>
            let E := fresh "E" in
            destruct (getitem_setitem_same d c s) as [? E]; rewrite E
        end ].
    unfold getitem at 1. rewrite Hhi. unfold getitem. by rewrite Hlo.
Qed.

Lemma fetch_stock_data_needs_high_low_witness :
  (history Scenario.library_close_only "AAA" "2024-01-01" "2024-02-01"
   = inr Scenario.close_only
   ∧ getitem Scenario.close_only "Close" = inr Scenario.stock1
   ∧ rsi Scenario.library_close_only Scenario.stock1 14 = inr Scenario.stock1
   ∧ macd Scenario.library_close_only Scenario.stock1 = inr Scenario.stock1
   ∧ df_columns Scenario.close_only !! "High" = None)
  ∧ fetch_stock_data Scenario.library_close_only "AAA" "2024-01-01" "2024-02-01"
      Scenario.nothing
    = (log Scenario.nothing [Called (CallHistory "AAA" "2024-01-01" "2024-02-01")],
       inl (KeyError "High")).
Proof.
  split; [by split_and!|].
  exact (proj1 (fetch_stock_data_needs_high_low Scenario.library_close_only "AAA"
                  "2024-01-01" "2024-02-01" Scenario.nothing Scenario.close_only
                  Scenario.stock1 Scenario.stock1 Scenario.stock1
                  eq_refl eq_refl eq_refl eq_refl) eq_refl).
Defined.

(** ** The two tests, to the end *)

(** When both routines answer, lines 88 to 100 call each routine once on the
    spread, the ADF routine first, and print the ADF report, the ADF verdict,
    the Phillips-Perron report and the Phillips-Perron verdict, in this order;
    each verdict depends on the p-value of its own test only. *)
Theorem run_tests_returns (lib : Library) (ticker1 ticker2 : string)
    (spread : Series) (w : world) (r : adfuller_result) (o : unit_root_test)
    (s p : float) :
  adfuller lib spread = inr r →
  PhillipsPerron lib spread = inr o → stat o = inr s → pvalue o = inr p →
  run_tests lib ticker1 ticker2 spread w
  = (log w (adf_report spread r
            ++ [verdict_line ticker1 ticker2 "ADF Test"
                  (is_stationary (adf_p_value r) 0.3)]
            ++ pp_report spread s p
            ++ [verdict_line ticker1 ticker2 "Phillips-Perron Test"
                  (is_stationary p 0.3)]), inr tt).
Proof.
  intros Hadf Hpp Hs Hp.
  rewrite (run_tests_adf_returns lib _ _ _ _ _ Hadf).
  rewrite (run_phillips_perron_returns lib _ _ _ _ o s p Hpp Hs Hp).
  by rewrite log_log, <- !app_assoc.
Qed.

Lemma run_tests_returns_witness :
  (adfuller (Scenario.library 0.01 0.5) Scenario.stock1 = inr (Scenario.adf_answer 0.01)
   ∧ PhillipsPerron (Scenario.library 0.01 0.5) Scenario.stock1
     = inr (Scenario.pp_answer 0.5)
   ∧ stat (Scenario.pp_answer 0.5) = inr (-3)%float
   ∧ pvalue (Scenario.pp_answer 0.5) = inr 0.5%float)
  ∧ run_tests (Scenario.library 0.01 0.5) "AAA" "BBB" Scenario.stock1 Scenario.nothing
    = (log Scenario.nothing
         (adf_report Scenario.stock1 (Scenario.adf_answer 0.01)
          ++ [verdict_line "AAA" "BBB" "ADF Test" true]
          ++ pp_report Scenario.stock1 (-3) 0.5
          ++ [verdict_line "AAA" "BBB" "Phillips-Perron Test" false]), inr tt).
Proof.
  split; [by split_and!|].
  exact (run_tests_returns (Scenario.library 0.01 0.5) "AAA" "BBB" Scenario.stock1
           Scenario.nothing (Scenario.adf_answer 0.01) (Scenario.pp_answer 0.5)
           (-3) 0.5 eq_refl eq_refl eq_refl eq_refl).
Defined.

(** When the ADF routine answers and the Phillips-Perron routine fails, at its
    construction or when its statistic is first read, the run ends with that
    exception after the ADF report and verdict were printed: they stay on the
    output, and no Phillips-Perron line follows. *)
Theorem run_tests_phillips_perron_raises (lib : Library) (ticker1 ticker2 : string)
    (spread : Series) (w : world) (r : adfuller_result) (e : exception) :
  adfuller lib spread = inr r →
  match PhillipsPerron lib spread with
  | inl e' => e' = e
  | inr o => stat o = inl e
  end →
  run_tests lib ticker1 ticker2 spread w
  = (log w (adf_report spread r
            ++ [verdict_line ticker1 ticker2 "ADF Test"
                  (is_stationary (adf_p_value r) 0.3);
                Called (CallPhillipsPerron spread)]), inl e).
Proof.
  intros Hadf Hpp.
  rewrite (run_tests_adf_returns lib _ _ _ _ _ Hadf).
  rewrite (run_phillips_perron_raises lib _ _ _ _ _ Hpp).
  by rewrite log_log, <- !app_assoc.
Qed.

(** The Phillips-Perron report is printed line by line: when the statistic can
    be read and reading the p-value raises, the statistic line is already on
    the output when the exception leaves [phillips_perron_test], and no
    verdict is printed. *)
Theorem phillips_perron_partial_report (lib : Library) (ticker1 ticker2 : string)
    (spread : Series) (w : world) (o : unit_root_test) (s : float) (e : exception) :
  PhillipsPerron lib spread = inr o → stat o = inr s → pvalue o = inl e →
  phillips_perron_test lib spread w
  = (log w [Called (CallPhillipsPerron spread);
            Printed [Text (nl +:+ "Phillips-Perron Test Statistic: "); Number s]],
     inl e)
  ∧ run_phillips_perron lib ticker1 ticker2 spread w
    = (log w [Called (CallPhillipsPerron spread);
              Printed [Text (nl +:+ "Phillips-Perron Test Statistic: "); Number s]],
       inl e).
Proof.
  intros Hpp Hs Hp.
  assert (H : phillips_perron_test lib spread w
              = (log w [Called (CallPhillipsPerron spread);
                        Printed [Text (nl +:+ "Phillips-Perron Test Statistic: ");
                                 Number s]], inl e)).
  { unfold phillips_perron_test. run_script. rewrite Hpp, Hs. run_script.
    by rewrite Hp. }
  split; [done|]. unfold run_phillips_perron, mbind, M_bind. by rewrite H.
Qed.

Lemma run_tests_phillips_perron_raises_witness :
  (adfuller (Scenario.library_with (inl NonComputableStatistic)) Scenario.stock1
   = inr (Scenario.adf_answer 0.01)
   ∧ match PhillipsPerron (Scenario.library_with (inl NonComputableStatistic))
             Scenario.stock1 with
     | inl e' => e' = NonComputableStatistic
     | inr o => stat o = inl NonComputableStatistic
     end)
  ∧ run_tests (Scenario.library_with (inl NonComputableStatistic)) "AAA" "BBB"
      Scenario.stock1 Scenario.nothing
    = (log Scenario.nothing
         (adf_report Scenario.stock1 (Scenario.adf_answer 0.01)
          ++ [verdict_line "AAA" "BBB" "ADF Test" true;
              Called (CallPhillipsPerron Scenario.stock1)]),
       inl NonComputableStatistic).
Proof.
  split; [by split|].
  exact (run_tests_phillips_perron_raises
           (Scenario.library_with (inl NonComputableStatistic)) "AAA" "BBB"
           Scenario.stock1 Scenario.nothing (Scenario.adf_answer 0.01)
           NonComputableStatistic eq_refl eq_refl).
Defined.

Lemma phillips_perron_partial_report_witness :
  (PhillipsPerron
     (Scenario.library_with
        (inr {| stat := inr (-3)%float; pvalue := inl NonComputableStatistic |}))
     Scenario.stock1
   = inr {| stat := inr (-3)%float; pvalue := inl NonComputableStatistic |})
  ∧ phillips_perron_test
      (Scenario.library_with
         (inr {| stat := inr (-3)%float; pvalue := inl NonComputableStatistic |}))
      Scenario.stock1 Scenario.nothing
    = (log Scenario.nothing
         [Called (CallPhillipsPerron Scenario.stock1);
          Printed [Text (nl +:+ "Phillips-Perron Test Statistic: ");
                   Number (-3)%float]],
       inl NonComputableStatistic).
Proof.
  split; [reflexivity|].
  exact (proj1 (phillips_perron_partial_report
                  (Scenario.library_with
                     (inr {| stat := inr (-3)%float;
                             pvalue := inl NonComputableStatistic |}))
                  "AAA" "BBB" Scenario.stock1 Scenario.nothing
                  {| stat := inr (-3)%float; pvalue := inl NonComputableStatistic |}
                  (-3) NonComputableStatistic eq_refl eq_refl eq_refl)).
Defined.

(** ** The script from its first prompt *)

(** With four lines to read, the script shows its four prompts, takes the
    two tickers in upper case and the two dates as typed, and goes on. *)
Lemma main_reads (lib : Library) (l1 l2 l3 l4 : string) (rest : list string)
    (evs : list event) :
  main lib {| stdin := l1 :: l2 :: l3 :: l4 :: rest; events := evs |}
  = (stock1 ← fetch_close lib (upper l1) l3 l4;
     stock2 ← fetch_close lib (upper l2) l3 l4;
     spread ← raw_spread stock1 stock2;
     print [Text (nl +:+ "Spread Summary:")];;
     print [Described spread];;
     run_tests lib (upper l1) (upper l2) spread)
      {| stdin := rest; events := evs ++ prompts |}.
Proof.
  unfold main, prompts, fmap, M_fmap, mbind, M_bind, mret, M_ret, input. simpl.
  by rewrite <- !app_assoc.
Qed.

Lemma fetch_close_raises (lib : Library) (ticker start_date end_date : string)
    (w : world) (e : exception) :
  history lib ticker start_date end_date = inl e →
  fetch_close lib ticker start_date end_date w
  = (log w [Called (CallHistory ticker start_date end_date)], inl e).
Proof.
  intros H. unfold fetch_close, fetch_stock_data. run_script. by rewrite H.
Qed.

(** At the end of the input the script stops with [EOFError]: with fewer than
    four lines to read it shows one prompt more than it read lines, then
    raises; the provider is not called and nothing is printed. *)
Theorem main_end_of_input (lib : Library) (w : world) :
  (length (stdin w) < 4)%nat →
  main lib w
  = ({| stdin := []; events := events w ++ take (S (length (stdin w))) prompts |},
     inl EOFError).
Proof.
  destruct w as [[|l1 [|l2 [|l3 [|l4 rest]]]] evs]; simpl; intros H; try lia.
  all: unfold main, prompts, fmap, M_fmap, mbind, M_bind, mret, M_ret, input, log;
    simpl; by rewrite <- ?app_assoc.
Qed.

Lemma main_end_of_input_witness :
  (length (stdin {| stdin := ["aaa"; "bbb"]; events := [] |}) < 4)%nat
  ∧ main (Scenario.library 0.01 0.5) {| stdin := ["aaa"; "bbb"]; events := [] |}
    = ({| stdin := [];
          events := [ Prompt "Enter first stock ticker for pair testing: ";
                      Prompt "Enter second stock ticker for pair testing: ";
                      Prompt "Enter start date (YYYY-MM-DD): " ] |},
       inl EOFError).
Proof.
  assert (H : (length (stdin {| stdin := ["aaa"; "bbb"]; events := [] |}) < 4)%nat)
    by (simpl; lia).
  split; [exact H|].
  exact (main_end_of_input (Scenario.library 0.01 0.5)
           {| stdin := ["aaa"; "bbb"]; events := [] |} H).
Defined.

(** When the provider fails for the first ticker, typed in ASCII, the script
    stops with the provider's exception right after that call, which was made
    with the ticker in upper case and the dates as typed: the second ticker is
    not fetched, no summary is printed and no test is run. *)
Theorem main_first_fetch_fails (lib : Library) (l1 l2 l3 l4 : string)
    (rest : list string) (evs : list event) (e : exception) :
  is_ascii l1 = true →
  history lib (upper l1) l3 l4 = inl e →
  main lib {| stdin := l1 :: l2 :: l3 :: l4 :: rest; events := evs |}
  = ({| stdin := rest;
        events := evs ++ prompts ++ [Called (CallHistory (upper l1) l3 l4)] |},
     inl e).
Proof.
  intros _ H. rewrite main_reads. unfold mbind, M_bind at 1.
  rewrite (fetch_close_raises lib _ _ _ _ _ H). unfold log. simpl.
  by rewrite <- app_assoc.
Qed.

Lemma main_first_fetch_fails_witness :
  (is_ascii "zzz" = true
   ∧ history Scenario.library_aaa_only (upper "zzz") "2024-01-01" "2024-02-01"
     = inl FetchError)
  ∧ main Scenario.library_aaa_only
      {| stdin := ["zzz"; "aaa"; "2024-01-01"; "2024-02-01"]; events := [] |}
    = ({| stdin := [];
          events := prompts ++ [Called (CallHistory "ZZZ" "2024-01-01" "2024-02-01")] |},
       inl FetchError).
Proof.
  split; [by split|].
  exact (main_first_fetch_fails Scenario.library_aaa_only "zzz" "aaa" "2024-01-01"
           "2024-02-01" [] [] FetchError eq_refl eq_refl).
Defined.

(** Two different tickers typed in ASCII: when the first is fetched and the
    provider fails for the second, the script stops with that exception after
    the two calls: no summary is printed and no test is run. *)
Theorem main_second_fetch_fails (lib : Library) (l1 l2 l3 l4 : string)
    (rest : list string) (evs : list event) (w1 : world) (stock1 : Series)
    (e : exception) :
  is_ascii l1 = true → is_ascii l2 = true →
  upper l1 ≠ upper l2 →
  fetch_close lib (upper l1) l3 l4 {| stdin := rest; events := evs ++ prompts |}
  = (w1, inr stock1) →
  history lib (upper l2) l3 l4 = inl e →
  main lib {| stdin := l1 :: l2 :: l3 :: l4 :: rest; events := evs |}
  = (log w1 [Called (CallHistory (upper l2) l3 l4)], inl e).
Proof.
  intros _ _ _ H1 H2. rewrite main_reads. unfold mbind, M_bind at 1. rewrite H1.
  unfold M_bind at 1. by rewrite (fetch_close_raises lib _ _ _ _ _ H2).
Qed.

Lemma main_second_fetch_fails_witness :
  (is_ascii "aaa" = true ∧ is_ascii "zzz" = true
   ∧ upper "aaa" ≠ upper "zzz"
   ∧ fetch_close Scenario.library_aaa_only (upper "aaa") "2024-01-01" "2024-02-01"
       {| stdin := []; events := [] ++ prompts |}
     = ({| stdin := [];
           events := prompts ++ [Called (CallHistory "AAA" "2024-01-01" "2024-02-01")] |},
        inr Scenario.stock1)
   ∧ history Scenario.library_aaa_only (upper "zzz") "2024-01-01" "2024-02-01"
     = inl FetchError)
  ∧ main Scenario.library_aaa_only
      {| stdin := ["aaa"; "zzz"; "2024-01-01"; "2024-02-01"]; events := [] |}
    = ({| stdin := [];
          events := prompts ++ [Called (CallHistory "AAA" "2024-01-01" "2024-02-01");
                                Called (CallHistory "ZZZ" "2024-01-01" "2024-02-01")] |},
       inl FetchError).
Proof.
  assert (Hne : upper "aaa" ≠ upper "zzz") by (vm_compute; discriminate).
  assert (H1 : fetch_close Scenario.library_aaa_only (upper "aaa") "2024-01-01"
                 "2024-02-01" {| stdin := []; events := [] ++ prompts |}
               = ({| stdin := [];
                     events := prompts
                               ++ [Called (CallHistory "AAA" "2024-01-01" "2024-02-01")] |},
                  inr Scenario.stock1)) by (vm_compute; reflexivity).
  split; [by split_and!|].
  exact (main_second_fetch_fails Scenario.library_aaa_only "aaa" "zzz" "2024-01-01"
           "2024-02-01" [] [] _ Scenario.stock1 FetchError eq_refl eq_refl Hne
           H1 eq_refl).
Defined.

(** Tickers typed in ASCII, and two fetched closing-price series with
    strictly ascending dates: the script prints the summary of their
    difference and runs the two tests on that difference, under the tickers
    in upper case: what it does from there is the run of lines 88 to 100. *)
Theorem main_runs_tests_on_spread (lib : Library) (l1 l2 l3 l4 : string)
    (rest : list string) (evs : list event) (w1 w2 : world) (stock1 stock2 : Series) :
  is_ascii l1 = true → is_ascii l2 = true →
  fetch_close lib (upper l1) l3 l4 {| stdin := rest; events := evs ++ prompts |}
  = (w1, inr stock1) →
  fetch_close lib (upper l2) l3 l4 w1 = (w2, inr stock2) →
  ascending (series_index stock1) = true →
  ascending (series_index stock2) = true →
  main lib {| stdin := l1 :: l2 :: l3 :: l4 :: rest; events := evs |}
  = run_tests lib (upper l1) (upper l2) (series_sub stock1 stock2)
      (log w2 [Printed [Text (nl +:+ "Spread Summary:")];
               Printed [Described (series_sub stock1 stock2)]]).
Proof.
  intros _ _ H1 H2 _ _. rewrite main_reads. unfold mbind, M_bind at 1. rewrite H1.
  unfold M_bind at 1. rewrite H2.
  unfold M_bind, raw_spread, mret, M_ret, print, emit. by rewrite log_log.
Qed.

Lemma main_runs_tests_on_spread_witness :
  (is_ascii "aaa" = true ∧ is_ascii "bbb" = true
   ∧ fetch_close (Scenario.library 0.01 0.5) (upper "aaa") "2024-01-01" "2024-02-01"
       {| stdin := []; events := [] ++ prompts |}
     = ({| stdin := [];
           events := prompts ++ [Called (CallHistory "AAA" "2024-01-01" "2024-02-01")] |},
        inr Scenario.stock1)
   ∧ fetch_close (Scenario.library 0.01 0.5) (upper "bbb") "2024-01-01" "2024-02-01"
       {| stdin := [];
          events := prompts ++ [Called (CallHistory "AAA" "2024-01-01" "2024-02-01")] |}
     = ({| stdin := [];
           events := prompts
                     ++ [Called (CallHistory "AAA" "2024-01-01" "2024-02-01");
                         Called (CallHistory "BBB" "2024-01-01" "2024-02-01")] |},
        inr Scenario.stock2)
   ∧ ascending (series_index Scenario.stock1) = true
   ∧ ascending (series_index Scenario.stock2) = true)
  ∧ main (Scenario.library 0.01 0.5) Scenario.keyboard
    = run_tests (Scenario.library 0.01 0.5) "AAA" "BBB"
        (series_sub Scenario.stock1 Scenario.stock2)
        (log {| stdin := [];
                events := prompts
                          ++ [Called (CallHistory "AAA" "2024-01-01" "2024-02-01");
                              Called (CallHistory "BBB" "2024-01-01" "2024-02-01")] |}
           [Printed [Text (nl +:+ "Spread Summary:")];
            Printed [Described (series_sub Scenario.stock1 Scenario.stock2)]]).
Proof.
  assert (H1 : fetch_close (Scenario.library 0.01 0.5) (upper "aaa") "2024-01-01"
                 "2024-02-01" {| stdin := []; events := [] ++ prompts |}
               = ({| stdin := [];
                     events := prompts
                               ++ [Called (CallHistory "AAA" "2024-01-01" "2024-02-01")] |},
                  inr Scenario.stock1)) by (vm_compute; reflexivity).
  assert (H2 : fetch_close (Scenario.library 0.01 0.5) (upper "bbb") "2024-01-01"
                 "2024-02-01"
                 {| stdin := [];
                    events := prompts
                              ++ [Called (CallHistory "AAA" "2024-01-01" "2024-02-01")] |}
               = ({| stdin := [];
                     events := prompts
                               ++ [Called (CallHistory "AAA" "2024-01-01" "2024-02-01");
                                   Called (CallHistory "BBB" "2024-01-01" "2024-02-01")] |},
                  inr Scenario.stock2)) by (vm_compute; reflexivity).
  split; [by split_and!|].
  exact (main_runs_tests_on_spread (Scenario.library 0.01 0.5) "aaa" "bbb"
           "2024-01-01" "2024-02-01" [] [] _ _ Scenario.stock1 Scenario.stock2
           eq_refl eq_refl H1 H2 eq_refl eq_refl).
Defined.

Lemma fetch_stock_data_returns_witness :
  (history (Scenario.library 0.01 0.5) "AAA" "2024-01-01" "2024-02-01"
   = inr Scenario.aaa
   ∧ getitem Scenario.aaa "Close" = inr Scenario.stock1
   ∧ getitem Scenario.aaa "High" = inr Scenario.stock1
   ∧ getitem Scenario.aaa "Low" = inr Scenario.stock1
   ∧ rsi (Scenario.library 0.01 0.5) Scenario.stock1 14 = inr Scenario.stock1
   ∧ macd (Scenario.library 0.01 0.5) Scenario.stock1 = inr Scenario.stock1
   ∧ average_true_range (Scenario.library 0.01 0.5) Scenario.stock1 Scenario.stock1
       Scenario.stock1 = inr Scenario.stock1)
  ∧ ∃ data,
      fetch_stock_data (Scenario.library 0.01 0.5) "AAA" "2024-01-01" "2024-02-01"
        Scenario.nothing
      = (log Scenario.nothing [Called (CallHistory "AAA" "2024-01-01" "2024-02-01")],
         inr data).
Proof.
  split; [by split_and!|].
  exact (fetch_stock_data_returns (Scenario.library 0.01 0.5) "AAA" "2024-01-01"
           "2024-02-01" Scenario.nothing Scenario.aaa Scenario.stock1 Scenario.stock1
           Scenario.stock1 Scenario.stock1 Scenario.stock1 Scenario.stock1
           eq_refl eq_refl eq_refl eq_refl eq_refl eq_refl eq_refl).
Defined.
